(** * PedalBuild: inventory and BOM services

    A shallow embedding of the Python services of the PedalBuild backend
    (component inventory, BOM manager, CSV importer and the two HTTP routes
    that wrap them), together with the properties of the specification that
    were checked against them.

    Conventions of the embedding.
    - A SQLite table is the list of its rows in rowid (insertion) order.
    - TEXT values are [string]s holding the UTF-8 bytes of the text; an
      [ascii] is one byte.  The engine works on these bytes: LIKE reads them
      a UTF-8 character at a time, stops at a NUL byte and folds the case of
      ASCII letters only.  The Python string methods that depend on the
      Unicode tables ([str.lower], [str.upper], [str.strip]) and the slice
      [s[:20]] are modelled on ASCII text ([is_ascii]), where a byte is a
      character; statements about them carry that hypothesis.
    - INTEGER values and Python ints are [Z].  SQLite stores 64-bit
      integers ([int64]): binding a Python int outside that range raises
      OverflowError, and the statements about sums of stocks say where
      the range is assumed.
    - REAL values (confidence_score) are carried by their exact rational
      value in [Q].
    - A nullable column is an [option]. *)

From Stdlib Require Import List String Ascii ZArith QArith Qabs Bool Lia.
From Stdlib Require Import Sorting.Sorted Sorting.Permutation.
From Stdlib Require Import Numbers.DecimalString Numbers.DecimalPos.
Import ListNotations.

Local Open Scope string_scope.
Local Open Scope Z_scope.

(* ===================================================================== *)
(** * Characters and strings *)
(* ===================================================================== *)

Definition is_upper (c : ascii) : bool :=
  let n := nat_of_ascii c in (65 <=? n)%nat && (n <=? 90)%nat.

Definition is_lower (c : ascii) : bool :=
  let n := nat_of_ascii c in (97 <=? n)%nat && (n <=? 122)%nat.

(** [sqlite3Tolower] on a byte; [str.lower] on an ASCII character. *)
Definition ascii_lower (c : ascii) : ascii :=
  if is_upper c then ascii_of_nat (nat_of_ascii c + 32) else c.

(** [str.upper] on an ASCII character. *)
Definition ascii_upper (c : ascii) : ascii :=
  if is_lower c then ascii_of_nat (nat_of_ascii c - 32) else c.

Fixpoint string_map (f : ascii -> ascii) (s : string) : string :=
  match s with
  | EmptyString => EmptyString
  | String c s' => String (f c) (string_map f s')
  end.

(** The text is ASCII: every byte is below 128, so that a byte is a
    character. *)
Fixpoint is_ascii (s : string) : bool :=
  match s with
  | EmptyString => true
  | String c s' => (nat_of_ascii c <? 128)%nat && is_ascii s'
  end.

(** [s.lower()] and [s.upper()] of an ASCII text.  Beyond ASCII Python
    follows the Unicode case tables, which are not modelled: there the
    bytes are left as they are, and no statement is made about them. *)
Definition lower (s : string) : string := string_map ascii_lower s.
Definition upper (s : string) : string := string_map ascii_upper s.

(** [s.replace(a, b)] for one-character ASCII [a] and [b]: an ASCII byte
    of UTF-8 text is always a character of its own. *)
Definition replace_char (a b : ascii) (s : string) : string :=
  string_map (fun c => if Ascii.eqb c a then b else c) s.

(** The ASCII characters removed by [str.strip()]: tab to carriage return,
    the four separators 28 to 31, and the space.  (Python also strips the
    white space beyond ASCII, such as the no-break space; see [lower].) *)
Definition is_space (c : ascii) : bool :=
  let n := nat_of_ascii c in
  ((9 <=? n)%nat && (n <=? 13)%nat) || ((28 <=? n)%nat && (n <=? 32)%nat).

Fixpoint lstrip (s : string) : string :=
  match s with
  | EmptyString => EmptyString
  | String c s' => if is_space c then lstrip s' else s
  end.

Fixpoint rstrip (s : string) : string :=
  match s with
  | EmptyString => EmptyString
  | String c s' =>
      match rstrip s' with
      | EmptyString => if is_space c then EmptyString else String c EmptyString
      | r => String c r
      end
  end.

Definition strip (s : string) : string := rstrip (lstrip s).

(** [l.append(x)] *)
Definition push {A : Type} (l : list A) (x : A) : list A := (l ++ [x])%list.

(** [d[k] = v] on a dict, which keeps the position of a key it has. *)
Fixpoint dict_set {V : Type} (d : list (string * V)) (k : string) (v : V)
  : list (string * V) :=
  match d with
  | [] => [(k, v)]
  | (k', v') :: d' =>
      if String.eqb k' k then (k', v) :: d' else (k', v') :: dict_set d' k v
  end.

(** Truth value of a Python [str]. *)
Definition truthy (s : string) : bool :=
  match s with EmptyString => false | _ => true end.

(** [s.split(sep)] for a one-character separator. *)
Fixpoint split (sep : ascii) (s : string) : list string :=
  match s with
  | EmptyString => [EmptyString]
  | String c s' =>
      if Ascii.eqb c sep then EmptyString :: split sep s'
      else match split sep s' with
           | h :: t => String c h :: t
           | [] => [String c EmptyString]
           end
  end.

(** [s.count(c)] for a one-character [c]. *)
Fixpoint count_char (c : ascii) (s : string) : nat :=
  match s with
  | EmptyString => 0%nat
  | String d s' => ((if Ascii.eqb d c then 1 else 0) + count_char c s')%nat
  end.

Definition newline : ascii := ascii_of_nat 10.
Definition nl : string := String newline EmptyString.
Definition dquote : string := String (ascii_of_nat 34) EmptyString.

(** [str(n)] for a Python int. *)
Definition str_int (z : Z) : string := NilZero.string_of_int (Z.to_int z).

(** Nearest integer, ties to even. *)
Definition round_half_even (q : Q) : Z :=
  let n := Qnum q in
  let d := Zpos (Qden q) in
  let f := n / d in
  let r2 := 2 * (n mod d) in
  if r2 <? d then f
  else if d <? r2 then f + 1
  else if Z.even f then f else f + 1.

Definition digit_char (z : Z) : ascii := ascii_of_nat (48 + Z.to_nat z).

(** [format(x, '.2f')]: the correctly rounded decimal with two fractional
    digits (ties to even on the exact value of the float). *)
Definition format_2f (q : Q) : string :=
  let h := round_half_even (Qabs q * 100) in
  (if Qlt_le_dec q 0 then "-" else "")
    ++ str_int (h / 100) ++ "."
    ++ String (digit_char ((h / 10) mod 10))
         (String (digit_char (h mod 10)) EmptyString).

(* ===================================================================== *)
(** * The SQLite fragment used by the services *)
(* ===================================================================== *)

Module Sqlite.

Definition percent : ascii := ascii_of_nat 37.
Definition underscore : ascii := ascii_of_nat 95.

Definition nul : ascii := ascii_of_nat 0.

(** The operands of LIKE are read as C strings: up to the first NUL
    byte. *)
Fixpoint c_str (s : string) : string :=
  match s with
  | EmptyString => EmptyString
  | String c s' => if Ascii.eqb c nul then EmptyString else String c (c_str s')
  end.

(** The bytes of UTF-8: a continuation byte is 10xxxxxx, a byte that
    starts a character of several bytes is 11xxxxxx. *)
Definition is_continuation (c : ascii) : bool :=
  let n := nat_of_ascii c in (128 <=? n)%nat && (n <? 192)%nat.

Definition is_lead (c : ascii) : bool := (192 <=? nat_of_ascii c)%nat.

Fixpoint skip_continuation (s : string) : string :=
  match s with
  | EmptyString => EmptyString
  | String c s' => if is_continuation c then skip_continuation s' else s
  end.

(** [sqlite3Utf8Read]: what is left of the text [String c s'] once its
    first character has been read.  A lead byte takes the continuation
    bytes that follow it; any other byte is a character by itself. *)
Definition after_char (c : ascii) (s' : string) : string :=
  if is_lead c then skip_continuation s' else s'.

(** [%] followed by the rest of a pattern: the rest, [m], is tried on the
    text and on what is left of it after each of its characters.
    [inside] tells that the byte before was part of a character that a
    lead byte started. *)
Fixpoint star (m : string -> bool) (s : string) (inside : bool) : bool :=
  match s with
  | EmptyString => m EmptyString
  | String c s' =>
      if inside && is_continuation c then star m s' true
      else m s || star m s' (is_lead c)
  end.

(** [patternCompare] on two C strings, as LIKE calls it (no ESCAPE clause,
    case_sensitive_like left off): [%] matches any run of characters, [_]
    any one character, and any other byte of the pattern matches itself,
    an ASCII letter in either case.  The bytes are those of well-formed
    UTF-8, which is what the sqlite3 module binds for a [str].  (The
    engine refuses a pattern longer than its configured limit, 50000 bytes
    unless changed; the model has no such limit.) *)
Fixpoint like_from (pattern : string) : string -> bool :=
  match pattern with
  | EmptyString => fun s => negb (truthy s)
  | String p rest =>
      if Ascii.eqb p percent then
        fun s => star (like_from rest) s false
      else if Ascii.eqb p underscore then
        fun s => match s with
                 | EmptyString => false
                 | String c s' => like_from rest (after_char c s')
                 end
      else
        fun s => match s with
                 | EmptyString => false
                 | String c s' =>
                     Ascii.eqb (ascii_lower p) (ascii_lower c)
                     && like_from rest s'
                 end
  end.

(** [s LIKE pattern] on two TEXT values. *)
Definition like (pattern s : string) : bool :=
  like_from (c_str pattern) (c_str s).

(** [col LIKE pattern] used as a condition: NULL is not true. *)
Definition like_col (col : option string) (pattern : string) : bool :=
  match col with
  | None => false
  | Some s => like pattern s
  end.

(** [col = v] used as a condition.  Modelled from the spec: schema.sql is
    not among the sources and section 4.1 speaks of the engine's default
    collation, which is BINARY: TEXT values are equal when they are the
    same string. *)
Definition eq_col (col : option string) (v : string) : bool :=
  match col with
  | None => false
  | Some s => String.eqb s v
  end.

(** Comparison of two TEXT values under BINARY collation: character by
    character, a proper prefix first. *)
Definition text_compare : string -> string -> comparison := String.compare.

(** NULL sorts before every value. *)
Definition null_compare (a b : option string) : comparison :=
  match a, b with
  | None, None => Eq
  | None, Some _ => Lt
  | Some _, None => Gt
  | Some x, Some y => text_compare x y
  end.

Definition then_compare (c1 c2 : comparison) : comparison :=
  match c1 with Eq => c2 | _ => c1 end.

Definition not_after (c : comparison) : bool :=
  match c with Gt => false | _ => true end.

Section OrderBy.
Context {A : Type} (cmp : A -> A -> comparison).

Fixpoint insert_row (x : A) (l : list A) : list A :=
  match l with
  | [] => [x]
  | y :: l' => if not_after (cmp x y) then x :: l else y :: insert_row x l'
  end.

(** [ORDER BY]: rows that compare equal keep their scan order. *)
Fixpoint order_by (l : list A) : list A :=
  match l with
  | [] => []
  | x :: l' => insert_row x (order_by l')
  end.
End OrderBy.

(** GROUP BY on a TEXT key: one group per distinct key, holding the rows
    with that key in scan order; the groups come in key order (the engine
    sorts on the key to form them). *)
Definition group_by {A : Type} (key : A -> string) (rows : list A)
  : list (string * list A) :=
  map (fun k => (k, filter (fun r => String.eqb (key r) k) rows))
      (nodup string_dec (order_by text_compare (map key rows))).

(** COUNT( * ) and SUM(e) over the rows of a group. *)
Definition sql_count {A : Type} (rows : list A) : Z :=
  Z.of_nat (List.length rows).

(** SUM of an INTEGER expression is the running total of the rows.  The
    engine keeps the total in 64 bits and aborts the query with 'integer
    overflow' when a step leaves that range; the statements about a sum
    assume that it does not ([sum_fits] below), which holds in whatever
    order the rows are visited when the magnitudes of the terms add up to
    less than 2^63. *)
Definition sql_sum {A : Type} (e : A -> Z) (rows : list A) : Z :=
  fold_left (fun total r => total + e r) rows 0.

(** The magnitudes of the terms add up to less than 2^63, so that no
    partial sum, in any order of the rows, leaves the 64-bit range. *)
Definition sum_fits {A : Type} (e : A -> Z) (rows : list A) : bool :=
  fold_left (fun total r => total + Z.abs (e r)) rows 0 <? 2 ^ 63.

(** SUM(CASE WHEN cond THEN 1 ELSE 0 END) *)
Definition sql_count_when {A : Type} (cond : A -> bool) (rows : list A) : Z :=
  sql_sum (fun r => if cond r then 1 else 0) rows.

End Sqlite.


(* ===================================================================== *)
(** * Data model *)
(* ===================================================================== *)

(** A row of [components]. *)
Record Component := mkComponent {
  id : string;
  type : string;
  name : string;
  value : option string;
  tolerance : option string;
  package : option string;
  manufacturer : option string;
  part_number : option string;
  datasheet_url : option string;
  quantity_in_stock : Z;
  minimum_quantity : Z;
  unit_price : option Q;
  location : option string;
  voltage : option string;
  notes : option string;
  created_at : string;
  updated_at : string
}.

(** A row of [circuit_bom]. *)
Record CircuitBOMItem := mkCircuitBOMItem {
  item_id : string;
  circuit_id : string;
  component_type : string;
  component_value : string;
  quantity : Z;
  reference_designator : option string;
  substitution_allowed : bool;
  substitution_notes : option string;
  is_critical : bool;
  position_x : option Q;
  position_y : option Q;
  confidence_score : Q
}.

Record Database := mkDatabase {
  components : list Component;
  circuit_bom : list CircuitBOMItem
}.

(** What the engine does with an INSERT whose primary key is in the table
    already, which the key's conflict clause decides.  [ABORT] is the
    engine's default: the statement raises IntegrityError (ROLLBACK and
    FAIL do the same to an INSERT of one row).  With [IGNORE] the row is
    skipped and the statement reports no changed row. *)
Inductive ConflictClause := ABORT | IGNORE.

(** Modelled from the spec: src/db/schema.sql is not among the sources.
    Following section 6 of the specification, [id] is the primary key of
    both tables, and following sections 4.2 and 7 a BOM row whose id is
    taken leaves the row that has it in place (so the clause is not
    REPLACE).  The conflict clause of that key is a parameter, and so is
    whatever else the schema checks on a new row (NOT NULL, CHECK): [None]
    accepts the row, [Some msg] is the message of the violated
    constraint. *)
Record Schema := mkSchema {
  components_check : Component -> option string;
  circuit_bom_check : CircuitBOMItem -> option string;
  circuit_bom_conflict : ConflictClause
}.

(** Python exceptions that the modelled code can meet. *)
Inductive Exn :=
| IntegrityError (msg : string)
| ZeroDivisionError
| OverflowError.

(** The integers that SQLite stores: 64 bits, signed.  The sqlite3 module
    raises OverflowError when a Python int outside this range is bound to a
    statement. *)
Definition int64 (z : Z) : bool := (- 2 ^ 63 <=? z) && (z <? 2 ^ 63).

(** Result of a call: a value, or a raised exception. *)
Inductive Outcome (A : Type) :=
| Returned (a : A)
| Raised (e : Exn).
Arguments Returned {A} a.
Arguments Raised {A} e.

Definition bind {A B : Type} (m : Outcome A) (k : A -> Outcome B) : Outcome B :=
  match m with
  | Returned a => k a
  | Raised e => Raised e
  end.

Notation "x <- m ;; k" := (bind m (fun x => k))
  (at level 61, m at next level, right associativity).

(** [a / b] on Python ints: the float nearest to the quotient, carried here
    by the quotient itself; dividing by zero raises. *)
Definition truediv (a b : Z) : Outcome Q :=
  if b =? 0 then Raised ZeroDivisionError
  else Returned (inject_Z a / inject_Z b)%Q.

(** models/types.py, [ComponentType]: a [str] enumeration. *)
Inductive ComponentType :=
| RESISTOR | CAPACITOR | IC | TRANSISTOR | DIODE | POTENTIOMETER
| SWITCH | LED | JACK | HARDWARE | OTHER.

(** [member.value] *)
Definition enum_value (t : ComponentType) : string :=
  match t with
  | RESISTOR => "resistor"
  | CAPACITOR => "capacitor"
  | IC => "ic"
  | TRANSISTOR => "transistor"
  | DIODE => "diode"
  | POTENTIOMETER => "potentiometer"
  | SWITCH => "switch"
  | LED => "led"
  | JACK => "jack"
  | HARDWARE => "hardware"
  | OTHER => "other"
  end.

Definition component_types : list ComponentType :=
  [ RESISTOR; CAPACITOR; IC; TRANSISTOR; DIODE; POTENTIOMETER;
    SWITCH; LED; JACK; HARDWARE; OTHER ].

(** [ComponentType(s)]: the member whose value is [s]; [None] stands for
    the ValueError raised when there is none. *)
Definition component_type_of (s : string) : option ComponentType :=
  find (fun t => String.eqb (enum_value t) s) component_types.

(** What a route gives back: a body, or an HTTPException. *)
Inductive Http (A : Type) :=
| Ok (body : A)
| HttpError (status_code : nat) (detail : string).
Arguments Ok {A} body.
Arguments HttpError {A} status_code detail.

(* ===================================================================== *)
(** * services/component_inventory.py *)
(* ===================================================================== *)

(** The entry of a type in the inventory statistics. *)
Record TypeStats := mkTypeStats {
  types : Z;
  units_in_stock : Z
}.

(** The result of the inventory statistics ([stock_by_type] is its
    [by_type]). *)
Record InventoryStats := mkInventoryStats {
  total_types : Z;
  total_units : Z;
  stock_by_type : list (string * TypeStats);
  low_stock_count : Z;
  out_of_stock_count : Z
}.

Module ComponentInventoryService.
Import Sqlite.

(** The WHERE clause of [search_components]. *)
Definition search_where (query : string) (c : Component) : bool :=
  let pattern := "%" ++ query ++ "%" in
  like_col (value c) pattern
  || like_col (Some (name c)) pattern
  || like_col (part_number c) pattern.

(** The CASE expression of its ORDER BY. *)
Definition search_rank (query : string) (c : Component) : Z :=
  if eq_col (value c) query then 1
  else if like_col (value c) (query ++ "%") then 2
  else if like_col (Some (name c)) (query ++ "%") then 3
  else 4.

(** ORDER BY CASE ... END, type, value *)
Definition search_order (query : string) (c1 c2 : Component) : comparison :=
  then_compare (Z.compare (search_rank query c1) (search_rank query c2))
    (then_compare (text_compare (type c1) (type c2))
       (null_compare (value c1) (value c2))).

Definition search_components (db : Database) (query : string)
  : list Component :=
  order_by (search_order query) (filter (search_where query) (components db)).

Definition get_component (db : Database) (component_id : string)
  : option Component :=
  find (fun c => String.eqb (id c) component_id) (components db).

Definition set_quantity (c : Component) (q : Z) (now : string) : Component :=
  {| id := id c; type := type c; name := name c; value := value c;
     tolerance := tolerance c; package := package c;
     manufacturer := manufacturer c; part_number := part_number c;
     datasheet_url := datasheet_url c;
     quantity_in_stock := q;
     minimum_quantity := minimum_quantity c; unit_price := unit_price c;
     location := location c; voltage := voltage c; notes := notes c;
     created_at := created_at c;
     updated_at := now |}.

(** [now] is the value of [datetime('now')] at the time of the call.
    Binding [delta] raises OverflowError when it is no 64-bit integer, and
    nothing is written.  Otherwise the statement touches every row with
    the given id, and no constraint guards the new stock (sections 4.1 and
    7 of the specification).  The new stock is the sum as long as the sum
    is a 64-bit integer; past that the engine stores a REAL near the sum in
    its place, which a [Component] cannot hold: the row then carries the
    sum itself, and what is stated about the stock after an update assumes
    that the sum is a 64-bit integer ([stays_integer]). *)
Definition update_quantity (db : Database) (component_id : string)
    (delta : Z) (now : string) : Database * Outcome bool :=
  if negb (int64 delta) then (db, Raised OverflowError)
  else
    let hit c := String.eqb (id c) component_id in
    let rowcount := List.length (filter hit (components db)) in
    let rows :=
      map (fun c => if hit c
                    then set_quantity c (quantity_in_stock c + delta) now
                    else c)
          (components db) in
    let success := (0 <? rowcount)%nat in
    ({| components := rows; circuit_bom := circuit_bom db |},
     Returned success).

(** ORDER BY type, value *)
Definition list_order (c1 c2 : Component) : comparison :=
  then_compare (text_compare (type c1) (type c2))
    (null_compare (value c1) (value c2)).

Definition list_components (db : Database) (comp_type : option ComponentType)
  : list Component :=
  match comp_type with
  | Some t =>
      if truthy (enum_value t) then
        order_by list_order
          (filter (fun c => String.eqb (type c) (enum_value t)) (components db))
      else order_by list_order (components db)
  | None => order_by list_order (components db)
  end.

Definition get_low_stock (db : Database) : list Component :=
  order_by list_order
    (filter (fun c => quantity_in_stock c <=? minimum_quantity c)
            (components db)).

(** The rows of the statistics query: type, type_count, total_units,
    low_stock_count, out_of_stock_count. *)
Definition statistics_rows (db : Database) : list (string * (Z * Z * Z * Z)) :=
  map (fun g : string * list Component =>
         (fst g,
          (sql_count (snd g),
           sql_sum quantity_in_stock (snd g),
           sql_count_when
             (fun c => quantity_in_stock c <=? minimum_quantity c) (snd g),
           sql_count_when (fun c => quantity_in_stock c =? 0) (snd g))))
      (group_by type (components db)).

Definition statistics_step (acc : InventoryStats)
    (row : string * (Z * Z * Z * Z)) : InventoryStats :=
  let '(comp_type, (type_count, units, low, out)) := row in
  {| total_types := total_types acc + type_count;
     total_units := total_units acc + units;
     stock_by_type :=
       dict_set (stock_by_type acc) comp_type
         {| types := type_count; units_in_stock := units |};
     low_stock_count := low_stock_count acc + low;
     out_of_stock_count := out_of_stock_count acc + out |}.

Definition get_statistics (db : Database) : InventoryStats :=
  fold_left statistics_step (statistics_rows db)
    {| total_types := 0; total_units := 0; stock_by_type := [];
       low_stock_count := 0; out_of_stock_count := 0 |}.

End ComponentInventoryService.

(* ===================================================================== *)
(** * services/bom_manager.py *)
(* ===================================================================== *)

(** The [item] dict handed to [add_bom_item] (the dumped request). *)
Record AddBOMItemRequest := mkAddBOMItemRequest {
  req_component_type : string;
  req_component_value : string;
  req_quantity : Z;
  req_reference_designator : option string;
  req_substitution_allowed : bool;
  req_substitution_notes : option string;
  req_is_critical : bool;
  req_position_x : option Q;
  req_position_y : option Q;
  req_confidence_score : Q
}.

(** An entry of [matches] or [missing]. *)
Record MatchEntry := mkMatchEntry {
  bom_item : CircuitBOMItem;
  component : option Component;
  available : bool;
  quantity_needed : Z;
  quantity_available : Z
}.

Record Validation := mkValidation {
  total_items : nat;
  available_count : nat;
  missing_count : nat;
  completeness : Q;
  matches : list MatchEntry;
  missing : list MatchEntry
}.

Record ShoppingItem := mkShoppingItem {
  shop_type : string;
  shop_value : string;
  shop_quantity : Z;
  references : list string
}.

Record ShoppingList := mkShoppingList {
  missing_items : list ShoppingItem;
  total_missing : nat
}.

(** The result of the BOM statistics ([bom_total_items] and [bom_by_type]
    are its [total_items] and [by_type]). *)
Record BOMStats := mkBOMStats {
  bom_total_items : Z;
  bom_by_type : list (string * Z);
  critical_count : Z;
  low_confidence_count : Z
}.

(** The float written 0.7: 6305039478318694 / 2^53. *)
Definition float_0_7 : Q := 6305039478318694 # 9007199254740992.

Module BOMManagerService.
Import Sqlite.

(** ORDER BY component_type, component_value *)
Definition bom_order (a b : CircuitBOMItem) : comparison :=
  then_compare (text_compare (component_type a) (component_type b))
    (text_compare (component_value a) (component_value b)).

Definition get_bom (db : Database) (circuit : string) : list CircuitBOMItem :=
  order_by bom_order
    (filter (fun it => String.eqb (circuit_id it) circuit) (circuit_bom db)).

Definition unique_failed : string := "UNIQUE constraint failed: circuit_bom.id".

(** The id given to a new BOM row. *)
Definition generate_id (circuit : string) (item : AddBOMItemRequest) : string :=
  circuit ++ "_" ++ req_component_type item ++ "_"
    ++ req_component_value item ++ "_" ++ str_int (req_quantity item).

Definition add_bom_item (schema : Schema) (db : Database) (circuit : string)
    (item : AddBOMItemRequest) : Database * Outcome bool :=
  let new_id := generate_id circuit item in
  let row :=
    {| item_id := new_id;
       circuit_id := circuit;
       component_type := req_component_type item;
       component_value := req_component_value item;
       quantity := req_quantity item;
       reference_designator := req_reference_designator item;
       substitution_allowed := req_substitution_allowed item;
       substitution_notes := req_substitution_notes item;
       is_critical := req_is_critical item;
       position_x := req_position_x item;
       position_y := req_position_y item;
       confidence_score := req_confidence_score item |} in
  match circuit_bom_check schema row with
  | Some msg => (db, Raised (IntegrityError msg))
  | None =>
      if existsb (fun r => String.eqb (item_id r) new_id) (circuit_bom db)
      then
        match circuit_bom_conflict schema with
        | ABORT => (db, Raised (IntegrityError unique_failed))
        | IGNORE =>
            let rowcount := 0%nat in
            (db, Returned (0 <? rowcount)%nat)
        end
      else
        let rowcount := 1%nat in
        ({| components := components db;
            circuit_bom := push (circuit_bom db) row |},
         Returned (0 <? rowcount)%nat)
  end.

(** The accumulators of the loop of [validate_bom]. *)
Record ValidateAcc := mkValidateAcc {
  acc_matches : list MatchEntry;
  acc_missing : list MatchEntry;
  acc_available_count : nat
}.

Definition validate_step (db : Database) (acc : ValidateAcc)
    (bom_item : CircuitBOMItem) : ValidateAcc :=
  let search_results :=
    ComponentInventoryService.search_components db (component_value bom_item) in
  let matching :=
    filter (fun c => String.eqb (type c) (component_type bom_item))
           search_results in
  match matching with
  | c0 :: _ =>
      if quantity_in_stock c0 >=? quantity bom_item then
        {| acc_matches :=
             push (acc_matches acc)
               ({| bom_item := bom_item;
                  component := Some c0;
                  available := true;
                  quantity_needed := quantity bom_item;
                  quantity_available := quantity_in_stock c0 |});
           acc_missing := acc_missing acc;
           acc_available_count := S (acc_available_count acc) |}
      else
        {| acc_matches := acc_matches acc;
           acc_missing :=
             push (acc_missing acc)
               ({| bom_item := bom_item;
                  component := Some c0;
                  available := false;
                  quantity_needed := quantity bom_item;
                  quantity_available := quantity_in_stock c0 |});
           acc_available_count := acc_available_count acc |}
  | [] =>
      {| acc_matches := acc_matches acc;
         acc_missing :=
           push (acc_missing acc)
             ({| bom_item := bom_item;
                component := None;
                available := false;
                quantity_needed := quantity bom_item;
                quantity_available := 0 |});
         acc_available_count := acc_available_count acc |}
  end.

Definition validate_bom (db : Database) (circuit : string)
  : Outcome Validation :=
  let bom_items := get_bom db circuit in
  let acc :=
    fold_left (validate_step db) bom_items
      {| acc_matches := []; acc_missing := []; acc_available_count := 0 |} in
  completeness <-
    match bom_items with
    | [] => Returned 0%Q
    | _ :: _ => truediv (Z.of_nat (acc_available_count acc))
                        (Z.of_nat (List.length bom_items))
    end ;;
  Returned
    {| total_items := List.length bom_items;
       available_count := acc_available_count acc;
       missing_count := List.length (acc_missing acc);
       completeness := completeness;
       matches := acc_matches acc;
       missing := acc_missing acc |}.

Definition shopping_entry (item : MatchEntry) : ShoppingItem :=
  {| shop_type := component_type (bom_item item);
     shop_value := component_value (bom_item item);
     shop_quantity := quantity (bom_item item);
     references :=
       match reference_designator (bom_item item) with
       | Some s => if truthy s then split "," s else []
       | None => []
       end |}.

Definition get_shopping_list (db : Database) (circuit : string)
  : Outcome ShoppingList :=
  validation <- validate_bom db circuit ;;
  let shopping_list :=
    fold_left (fun sl item => push sl (shopping_entry item))
              (missing validation) [] in
  Returned {| missing_items := shopping_list;
              total_missing := List.length shopping_list |}.

Definition csv_header : string :=
  "Type,Value,Quantity,Reference Designators,Critical,Confidence".

(** [x or ''] on an optional string. *)
Definition or_empty (x : option string) : string :=
  match x with
  | Some s => if truthy s then s else ""
  | None => ""
  end.

Definition csv_line (item : CircuitBOMItem) : string :=
  component_type item ++ ","
    ++ component_value item ++ ","
    ++ str_int (quantity item) ++ ","
    ++ dquote ++ or_empty (reference_designator item) ++ dquote ++ ","
    ++ (if is_critical item then "Yes" else "No") ++ ","
    ++ format_2f (confidence_score item).

Definition export_bom_csv (db : Database) (circuit : string) : string :=
  let bom_items := get_bom db circuit in
  let lines :=
    fold_left (fun lines item => push lines (csv_line item))
              bom_items [csv_header] in
  String.concat nl lines.

(** One turn of the loop of [get_bom_by_type]. *)
Definition by_type_step (by_type : list (string * list CircuitBOMItem))
    (item : CircuitBOMItem) : list (string * list CircuitBOMItem) :=
  let comp_type := component_type item in
  let by_type :=
    if existsb (fun kv => String.eqb (fst kv) comp_type) by_type
    then by_type
    else dict_set by_type comp_type [] in
  map (fun kv : string * list CircuitBOMItem =>
         if String.eqb (fst kv) comp_type
         then (fst kv, push (snd kv) item)
         else kv)
      by_type.

Definition get_bom_by_type (db : Database) (circuit : string)
  : list (string * list CircuitBOMItem) :=
  let bom_items := get_bom db circuit in
  fold_left by_type_step bom_items [].

(** The rows of the statistics query: component_type, count,
    critical_count, low_confidence_count. *)
Definition statistics_rows (db : Database) (circuit : string)
  : list (string * (Z * Z * Z)) :=
  map (fun g : string * list CircuitBOMItem =>
         (fst g,
          (sql_count (snd g),
           sql_count_when (fun it => is_critical it) (snd g),
           sql_count_when
             (fun it => if Qlt_le_dec (confidence_score it) float_0_7
                        then true else false)
             (snd g))))
      (group_by component_type
         (filter (fun it => String.eqb (circuit_id it) circuit)
                 (circuit_bom db))).

Definition statistics_step (acc : BOMStats) (row : string * (Z * Z * Z))
  : BOMStats :=
  let '(comp_type, (count, critical, low)) := row in
  {| bom_total_items := bom_total_items acc + count;
     bom_by_type := dict_set (bom_by_type acc) comp_type count;
     critical_count := critical_count acc + critical;
     low_confidence_count := low_confidence_count acc + low |}.

Definition get_statistics (db : Database) (circuit : string) : BOMStats :=
  fold_left statistics_step (statistics_rows db circuit)
    {| bom_total_items := 0; bom_by_type := [];
       critical_count := 0; low_confidence_count := 0 |}.

End BOMManagerService.

(* ===================================================================== *)
(** * routes/bom.py *)
(* ===================================================================== *)

Module Routes.

Inductive Response :=
| PlainTextResponse (status_code : nat) (content : string) (media_type : string)
| JSONSuccess (status_code : nat) (success : bool) (circuit : string)
| HTTPException (status_code : nat) (detail : string).

(** [str(e)] *)
Definition str_exn (e : Exn) : string :=
  match e with
  | IntegrityError msg => msg
  | ZeroDivisionError => "division by zero"
  | OverflowError => "Python int too large to convert to SQLite INTEGER"
  end.

Definition add_bom_item (schema : Schema) (db : Database) (circuit : string)
    (request : AddBOMItemRequest) : Database * Response :=
  match BOMManagerService.add_bom_item schema db circuit request with
  | (db', Returned success) =>
      if negb success
      then (db', HTTPException 500 "Failed to add BOM item")
      else (db', JSONSuccess 200 true circuit)
  | (db', Raised e) => (db', HTTPException 500 (str_exn e))
  end.

Definition export_bom_csv (db : Database) (circuit : string) : Response :=
  let csv_content := BOMManagerService.export_bom_csv db circuit in
  if negb (truthy csv_content) || (count_char newline csv_content <=? 1)%nat
  then HTTPException 404 ("No BOM found for circuit: " ++ circuit)
  else PlainTextResponse 200 csv_content "text/csv".

(** The bodies of the BOM and by-type responses. *)
Record BOMResponse := mkBOMResponse {
  bom_circuit_id : string;
  bom_items : list CircuitBOMItem;
  bom_total : nat
}.

Record BOMByTypeResponse := mkBOMByTypeResponse {
  grouped_circuit_id : string;
  grouped_by_type : list (string * list CircuitBOMItem);
  grouped_total : nat
}.

Definition get_bom (db : Database) (circuit : string) : Http BOMResponse :=
  let items := BOMManagerService.get_bom db circuit in
  Ok {| bom_circuit_id := circuit;
        bom_items := items;
        bom_total := List.length items |}.

Definition get_bom_by_type (db : Database) (circuit : string)
  : Http BOMByTypeResponse :=
  let by_type := BOMManagerService.get_bom_by_type db circuit in
  let total :=
    list_sum (map (fun kv : string * list CircuitBOMItem =>
                     List.length (snd kv)) by_type) in
  Ok {| grouped_circuit_id := circuit;
        grouped_by_type := by_type;
        grouped_total := total |}.

End Routes.

(* ===================================================================== *)
(** * routes/inventory.py *)
(* ===================================================================== *)

Record ComponentListResponse := mkComponentListResponse {
  listed_components : list Component;
  listed_total : nat
}.

Record UpdateQuantityResponse := mkUpdateQuantityResponse {
  update_success : bool;
  update_component_id : string;
  new_quantity : Z
}.

(** [ComponentResponse]: the columns of a component, [voltage] left out. *)
Record ComponentResponse := mkComponentResponse {
  resp_id : string;
  resp_type : string;
  resp_name : string;
  resp_value : option string;
  resp_tolerance : option string;
  resp_package : option string;
  resp_manufacturer : option string;
  resp_part_number : option string;
  resp_datasheet_url : option string;
  resp_quantity_in_stock : Z;
  resp_minimum_quantity : Z;
  resp_unit_price : option Q;
  resp_location : option string;
  resp_notes : option string;
  resp_created_at : string;
  resp_updated_at : string
}.

Module InventoryRoutes.

(** One handler surrounds the whole body and it catches every exception,
    the 400 raised for an unknown type included.  [str_exception] is what
    [str] gives for an HTTPException of a given status and detail; the web
    framework defines it. *)
Definition list_components (str_exception : nat -> string -> string)
    (db : Database) (type : option string) : Http ComponentListResponse :=
  let parsed : Http (option ComponentType) :=
    match type with
    | Some t =>
        if truthy t then
          match component_type_of t with
          | Some member => Ok (Some member)
          | None => HttpError 400 ("Invalid component type: " ++ t)
          end
        else Ok None
    | None => Ok None
    end in
  match parsed with
  | Ok comp_type =>
      let components :=
        ComponentInventoryService.list_components db comp_type in
      Ok {| listed_components := components;
            listed_total := List.length components |}
  | HttpError status_code detail =>
      HttpError 500 (str_exception status_code detail)
  end.

(** [ComponentResponse( **component )]: the model takes the keys it
    declares and ignores the others, so the [voltage] of the row is not in
    the answer. *)
Definition component_response (component : Component) : ComponentResponse :=
  {| resp_id := id component;
     resp_type := type component;
     resp_name := name component;
     resp_value := value component;
     resp_tolerance := tolerance component;
     resp_package := package component;
     resp_manufacturer := manufacturer component;
     resp_part_number := part_number component;
     resp_datasheet_url := datasheet_url component;
     resp_quantity_in_stock := quantity_in_stock component;
     resp_minimum_quantity := minimum_quantity component;
     resp_unit_price := unit_price component;
     resp_location := location component;
     resp_notes := notes component;
     resp_created_at := created_at component;
     resp_updated_at := updated_at component |}.

Definition get_component (db : Database) (component_id : string)
  : Http ComponentResponse :=
  match ComponentInventoryService.get_component db component_id with
  | None => HttpError 404 ("Component not found: " ++ component_id)
  | Some component => Ok (component_response component)
  end.

(** An exception of the service (the OverflowError of a [delta] that is no
    64-bit integer) is caught by the handler and answered with 500. *)
Definition update_quantity (db : Database) (component_id : string)
    (delta : Z) (now : string) : Database * Http UpdateQuantityResponse :=
  match ComponentInventoryService.get_component db component_id with
  | None => (db, HttpError 404 ("Component not found: " ++ component_id))
  | Some _ =>
      match
        ComponentInventoryService.update_quantity db component_id delta now
      with
      | (db', Raised e) => (db', HttpError 500 (Routes.str_exn e))
      | (db', Returned success) =>
          if negb success then (db', HttpError 500 "Failed to update quantity")
          else
            match ComponentInventoryService.get_component db' component_id with
            | Some updated_component =>
                (db', Ok {| update_success := true;
                            update_component_id := component_id;
                            new_quantity :=
                              quantity_in_stock updated_component |})
            | None =>
                (db', HttpError 500 "'NoneType' object is not subscriptable")
            end
      end
  end.

End InventoryRoutes.

(* ===================================================================== *)
(** * services/excel_importer.py *)
(* ===================================================================== *)

(** A row of the data frame returned by [parse_csv]: the required columns
    are present, an empty cell of an optional column is [None], and text
    cells hold what [str] gives for them.  [VendorSKU] is [None] when the
    file has no such column and [Some None] when the cell is empty: the
    notes are built with [row.get('VendorSKU', '')], which tells the two
    apart. *)
Record CsvRow := mkCsvRow {
  Category : string;
  HumanReadableValue : string;
  Quantity : Z;
  SubType : option string;
  Footprint : option string;
  MfrPartNumber : option string;
  ReorderLevel : option Z;
  Voltage : option string;
  KeyNotes : option string;
  RelatedPart : option string;
  Vendor : option string;
  VendorSKU : option (option string);
  NumericBaseValue : option string;
  UnitType : option string
}.

Record ImportResult := mkImportResult {
  preview : bool;
  inserted : option nat;
  skipped : option nat;
  total_components : nat;
  by_type : list (string * nat)
}.

Module InventoryImporter.

Definition type_map : list (string * string) :=
  [ ("RESISTOR", "resistor"); ("RESISTORS", "resistor");
    ("CAPACITOR", "capacitor"); ("CAPACITORS", "capacitor");
    ("IC", "ic"); ("ICS", "ic"); ("IC ", "ic");
    ("TRANSISTOR", "transistor"); ("TRANSISTORS", "transistor");
    ("DIODE", "diode"); ("DIODES", "diode");
    ("POT", "potentiometer"); ("POTS", "potentiometer");
    ("POTENTIOMETER", "potentiometer"); ("POTENTIOMETERS", "potentiometer");
    ("HARDWARE", "hardware"); ("HARDWARE ", "hardware");
    ("SWITCH", "switch"); ("LED", "led"); ("JACK", "jack") ].

Fixpoint dict_get (m : list (string * string)) (k default : string) : string :=
  match m with
  | [] => default
  | (k', v) :: m' => if String.eqb k' k then v else dict_get m' k default
  end.

(** [category.strip().upper()] then the table; see [lower] for text beyond
    ASCII. *)
Definition normalize_type (category : string) : string :=
  let normalized := upper (strip category) in
  dict_get type_map normalized "other".

(** The [clean] of [generate_component_id], on ASCII text (see [lower]). *)
Definition clean (s : string) : string :=
  replace_char "." "_"
    (replace_char "-" "_"
       (replace_char "/" "_"
          (replace_char " " "_" (lower s)))).

(** [package[:20]] takes the first 20 characters, which are the first 20
    bytes of an ASCII text. *)
Definition generate_component_id (comp_type value package : string) : string :=
  let parts := [clean comp_type] in
  let parts := if truthy value then push parts (clean value) else parts in
  let parts :=
    if truthy package
    then push parts (clean (substring 0 20 package))
    else parts in
  String.concat "_" parts.

Definition create_component_name (subtype value : string) : string :=
  if truthy subtype && truthy value then strip subtype ++ " " ++ strip value
  else if truthy subtype then strip subtype
  else if truthy value then strip value
  else "Unknown Component".

Definition build_notes (row : CsvRow) : option string :=
  let notes_parts := [] in
  let notes_parts :=
    match KeyNotes row with
    | Some k => push notes_parts (k)
    | None => notes_parts
    end in
  let notes_parts :=
    match RelatedPart row with
    | Some r => push notes_parts ("Related: " ++ r)
    | None => notes_parts
    end in
  let notes_parts :=
    match Vendor row with
    | Some vendor =>
        let sku :=
          match VendorSKU row with
          | Some cell => cell
          | None => Some EmptyString
          end in
        match sku with
        | Some sku =>
            push notes_parts ("Vendor: " ++ vendor ++ " (SKU: " ++ sku ++ ")")
        | None => push notes_parts ("Vendor: " ++ vendor)
        end
    | None => notes_parts
    end in
  let notes_parts :=
    match NumericBaseValue row, UnitType row with
    | Some n, Some u => push notes_parts ("Numeric: " ++ n ++ " " ++ u)
    | _, _ => notes_parts
    end in
  match notes_parts with
  | [] => None
  | _ :: _ => Some (String.concat nl notes_parts)
  end.

(** [now1] and [now2] are the two readings of [datetime.now()]. *)
Definition transform_row (row : CsvRow) (now1 now2 : string) : Component :=
  let comp_type := normalize_type (Category row) in
  let subtype := match SubType row with Some s => s | None => "" end in
  let value := HumanReadableValue row in
  let name := create_component_name subtype value in
  let package := match Footprint row with Some s => s | None => "" end in
  let comp_id := generate_component_id comp_type value package in
  {| id := comp_id;
     type := comp_type;
     name := name;
     value := Some value;
     tolerance := None;
     package := if truthy package then Some package else None;
     manufacturer := None;
     part_number := MfrPartNumber row;
     datasheet_url := None;
     quantity_in_stock := Quantity row;
     minimum_quantity := match ReorderLevel row with Some r => r | None => 0 end;
     unit_price := None;
     location := None;
     voltage := Voltage row;
     notes := build_notes row;
     created_at := now1;
     updated_at := now2 |}.

(** [type_counts[k] = type_counts.get(k, 0) + 1] on a dict that keeps
    insertion order. *)
Fixpoint count_type (k : string) (counts : list (string * nat))
  : list (string * nat) :=
  match counts with
  | [] => [(k, 1%nat)]
  | (k', n) :: rest =>
      if String.eqb k' k then (k', S n) :: rest
      else (k', n) :: count_type k rest
  end.

(** State of the import loop: the [components] table as the open
    connection sees it, and the two counters. *)
Record ImportAcc := mkImportAcc {
  acc_table : list Component;
  acc_inserted : nat;
  acc_skipped : nat
}.

Definition import_step (schema : Schema) (acc : ImportAcc) (comp : Component)
  : ImportAcc :=
  if existsb (fun c => String.eqb (id c) (id comp)) (acc_table acc) then
    {| acc_table := acc_table acc;
       acc_inserted := acc_inserted acc;
       acc_skipped := S (acc_skipped acc) |}
  else
    match components_check schema comp with
    | None =>
        {| acc_table := push (acc_table acc) comp;
           acc_inserted := S (acc_inserted acc);
           acc_skipped := acc_skipped acc |}
    | Some _ => acc
    end.

(** [rows] is the parsed file; [clock] gives the successive readings of
    [datetime.now()]. *)
Definition transform_rows (rows : list CsvRow) (clock : nat -> string)
  : list Component :=
  map (fun ir : nat * CsvRow =>
         transform_row (snd ir) (clock (2 * fst ir)%nat)
                       (clock (2 * fst ir + 1)%nat))
      (combine (seq 0 (List.length rows)) rows).

Definition import_components (schema : Schema) (db : Database)
    (rows : list CsvRow) (preview : bool) (clock : nat -> string)
  : Database * ImportResult :=
  let comps := transform_rows rows clock in
  let type_counts :=
    fold_left (fun counts comp => count_type (type comp) counts)
              comps [] in
  if preview then
    (db, {| preview := true; inserted := None; skipped := None;
            total_components := List.length comps;
            by_type := type_counts |})
  else
    let acc :=
      fold_left (import_step schema) comps
        {| acc_table := components db;
           acc_inserted := 0; acc_skipped := 0 |} in
    ({| components := acc_table acc; circuit_bom := circuit_bom db |},
     {| preview := false;
        inserted := Some (acc_inserted acc);
        skipped := Some (acc_skipped acc);
        total_components := List.length comps;
        by_type := type_counts |}).

End InventoryImporter.

(* ===================================================================== *)
(** * Vocabulary of the specification *)
(* ===================================================================== *)

(** [q] is a prefix of [s]. *)
Fixpoint starts_with (q s : string) : bool :=
  match q, s with
  | EmptyString, _ => true
  | String _ _, EmptyString => false
  | String a q', String b s' => Ascii.eqb a b && starts_with q' s'
  end.

(** [s] contains [q] as a substring. *)
Fixpoint contains (q s : string) : bool :=
  starts_with q s
  || match s with
     | EmptyString => false
     | String _ s' => contains q s'
     end.










(** The search results for the value of a BOM item, restricted to the
    components of the item's type. *)
Definition candidates (db : Database) (it : CircuitBOMItem) : list Component :=
  filter (fun c => String.eqb (type c) (component_type it))
    (ComponentInventoryService.search_components db (component_value it)).

(** The matching rule of section 4.2, step 4. *)
Definition is_match (db : Database) (it : CircuitBOMItem) : bool :=
  match candidates db it with
  | [] => false
  | c :: _ => quantity it <=? quantity_in_stock c
  end.

(** The record kept for an item (steps 4 and 5): the first candidate, or
    none, and its stock, or 0. *)
Definition entry_for (db : Database) (avail : bool) (it : CircuitBOMItem)
  : MatchEntry :=
  {| bom_item := it;
     component := hd_error (candidates db it);
     available := avail;
     quantity_needed := quantity it;
     quantity_available :=
       match hd_error (candidates db it) with
       | Some c => quantity_in_stock c
       | None => 0
       end |}.

(** The projection of a miss as the specification words it: references
    are the designator split on commas, or nothing when it is null. *)
Definition shopping_entry_plain (m : MatchEntry) : ShoppingItem :=
  {| shop_type := component_type (bom_item m);
     shop_value := component_value (bom_item m);
     shop_quantity := quantity (bom_item m);
     references :=
       match reference_designator (bom_item m) with
       | None => []
       | Some s => split "," s
       end |}.

(** A shopping entry describes the BOM item [it]. *)
Definition describes (e : ShoppingItem) (it : CircuitBOMItem) : Prop :=
  shop_type e = component_type it
  /\ shop_value e = component_value it
  /\ shop_quantity e = quantity it.

(* ===================================================================== *)
(** * Sample data (tests/conftest.py) *)
(* ===================================================================== *)

Definition sample_component : Component :=
  {| id := "resistor_10k_through_hole";
     type := "resistor";
     name := "Metal Film 10k";
     value := Some "10k";
     tolerance := Some "1%";
     package := Some "through-hole";
     manufacturer := None;
     part_number := None;
     datasheet_url := None;
     quantity_in_stock := 50;
     minimum_quantity := 10;
     unit_price := None;
     location := Some "Drawer A";
     voltage := None;
     notes := None;
     created_at := "2024-01-01 00:00:00";
     updated_at := "2024-01-01 00:00:00" |}.

Definition sample_bom_resistor : CircuitBOMItem :=
  {| item_id := "test_overdrive_resistor_10k_1";
     circuit_id := "test_overdrive";
     component_type := "resistor";
     component_value := "10k";
     quantity := 2;
     reference_designator := Some "R1,R2";
     substitution_allowed := false;
     substitution_notes := None;
     is_critical := true;
     position_x := None;
     position_y := None;
     confidence_score := 95 # 100 |}.

Definition sample_bom_capacitor : CircuitBOMItem :=
  {| item_id := "test_overdrive_capacitor_100nf_1";
     circuit_id := "test_overdrive";
     component_type := "capacitor";
     component_value := "100nF";
     quantity := 3;
     reference_designator := Some "C1,C2,C3";
     substitution_allowed := false;
     substitution_notes := None;
     is_critical := false;
     position_x := None;
     position_y := None;
     confidence_score := 88 # 100 |}.

Definition sample_db : Database :=
  {| components := [sample_component];
     circuit_bom := [sample_bom_resistor; sample_bom_capacitor] |}.

Definition empty_db : Database := {| components := []; circuit_bom := [] |}.



(** A schema with the primary keys only, under the engine's default
    conflict clause. *)
Definition keys_only : Schema :=
  {| components_check := fun _ => None;
     circuit_bom_check := fun _ => None;
     circuit_bom_conflict := ABORT |}.

(** The same keys declared ON CONFLICT IGNORE. *)
Definition keys_ignore : Schema :=
  {| components_check := fun _ => None;
     circuit_bom_check := fun _ => None;
     circuit_bom_conflict := IGNORE |}.

(** The request of tests/test_api.py, [test_add_bom_item]. *)
Definition sample_request : AddBOMItemRequest :=
  {| req_component_type := "ic";
     req_component_value := "TL072";
     req_quantity := 1;
     req_reference_designator := Some "IC1";
     req_substitution_allowed := false;
     req_substitution_notes := None;
     req_is_critical := true;
     req_position_x := None;
     req_position_y := None;
     req_confidence_score := 92 # 100 |}.

(** A row with the given id is in the BOM table. *)
Definition bom_id_exists (db : Database) (i : string) : bool :=
  existsb (fun r => String.eqb (item_id r) i) (circuit_bom db).

Definition is_digit (c : ascii) : bool :=
  let n := nat_of_ascii c in (48 <=? n)%nat && (n <=? 57)%nat.

(** [s] is the decimal writing of the integer [z]: its digits, after a
    minus sign when [z] is negative, as the standard library reads
    them. *)
Definition decimal (z : Z) (s : string) : Prop :=
  NilZero.int_of_string s = Some (Z.to_int z).

(** [s] shows [q] with two decimal places: a sign, the integer part, a
    point and two digits, for the number of hundredths nearest to [q]. *)
Definition two_decimals (q : Q) (s : string) : Prop :=
  exists (h : Z) (whole : string) (d1 d2 : ascii),
    (Qabs (Qabs q * 100 - inject_Z h) <= 1 # 2)%Q
    /\ s = (if Qlt_le_dec q 0 then "-" else "")
           ++ whole ++ "." ++ String d1 (String d2 "")
    /\ decimal (h / 100) whole
    /\ nat_of_ascii d1 = (48 + Z.to_nat ((h / 10) mod 10))%nat
    /\ nat_of_ascii d2 = (48 + Z.to_nat (h mod 10))%nat.

(** The reference designators of a BOM line as text; a line without them
    has none to show. *)
Definition designators (it : CircuitBOMItem) : string :=
  match reference_designator it with
  | Some s => s
  | None => EmptyString
  end.

(** A BOM line without reference designators, with the confidence
    written 0.7. *)
Definition unlabelled_item : CircuitBOMItem :=
  {| item_id := "fuzz_diode_1N4148_12";
     circuit_id := "fuzz";
     component_type := "diode";
     component_value := "1N4148";
     quantity := 12;
     reference_designator := None;
     substitution_allowed := true;
     substitution_notes := None;
     is_critical := false;
     position_x := None;
     position_y := None;
     confidence_score := float_0_7 |}.

(** Number of newline characters in the lines of a list. *)
Definition newlines_in (lines : list string) : nat :=
  list_sum (map (count_char newline) lines).

(** The sample circuit with the resistor line only. *)
Definition one_item_db : Database :=
  {| components := [sample_component]; circuit_bom := [sample_bom_resistor] |}.

(** Normalizing one character of an id segment: lowercase, with space,
    slash, hyphen and dot turned into an underscore. *)
Definition clean_char (c : ascii) : ascii :=
  if Ascii.eqb c " " || Ascii.eqb c "/" || Ascii.eqb c "-" || Ascii.eqb c "."
  then "_"%char
  else ascii_lower c.

(** Normalizing a segment of ASCII text, character by character. *)
Definition normalized (s : string) : string := string_map clean_char s.




(** The row Category=RESISTOR, HumanReadableValue=10k, Quantity=50. *)
Definition sample_row : CsvRow :=
  {| Category := "RESISTOR";
     HumanReadableValue := "10k";
     Quantity := 50;
     SubType := None;
     Footprint := None;
     MfrPartNumber := None;
     ReorderLevel := None;
     Voltage := None;
     KeyNotes := None;
     RelatedPart := None;
     Vendor := None;
     VendorSKU := None;
     NumericBaseValue := None;
     UnitType := None |}.



(** A BOM line whose reference designator is the empty string, in a
    database without components. *)
Definition blank_designator_item : CircuitBOMItem :=
  {| item_id := "fuzz_resistor_4k7_1";
     circuit_id := "fuzz";
     component_type := "resistor";
     component_value := "4k7";
     quantity := 1;
     reference_designator := Some "";
     substitution_allowed := false;
     substitution_notes := None;
     is_critical := false;
     position_x := None;
     position_y := None;
     confidence_score := 1 |}.

Definition blank_designator_db : Database :=
  {| components := []; circuit_bom := [blank_designator_item] |}.



(** The BOM table after the sample request has been added once. *)
Definition added_once : Database :=
  fst (BOMManagerService.add_bom_item keys_only empty_db "test_overdrive"
         sample_request).

(* ===================================================================== *)
(** * Vocabulary for the remaining operations *)
(* ===================================================================== *)

(** [c1] may stand before [c2] in a listing: smaller type first, then
    smaller value, a missing value before any value. *)
Definition type_value_before (c1 c2 : Component) : Prop :=
  Sqlite.text_compare (type c1) (type c2) = Lt
  \/ (type c1 = type c2 /\ Sqlite.null_compare (value c1) (value c2) <> Gt).

(** The same for two lines of a BOM. *)
Definition bom_line_before (a b : CircuitBOMItem) : Prop :=
  Sqlite.text_compare (component_type a) (component_type b) = Lt
  \/ (component_type a = component_type b
      /\ Sqlite.text_compare (component_value a) (component_value b) <> Gt).

(** Number of elements that satisfy [p], and sum of [f] over a list. *)
Definition count_where {A : Type} (p : A -> bool) (l : list A) : Z :=
  Z.of_nat (List.length (filter p l)).

Definition sum_of {A : Type} (f : A -> Z) (l : list A) : Z :=
  fold_right Z.add 0 (map f l).

(** [d.get(k)] *)
Definition lookup {V : Type} (d : list (string * V)) (k : string) : option V :=
  option_map snd (find (fun kv => String.eqb (fst kv) k) d).

(** Below its reorder threshold, and out of stock. *)
Definition is_low (c : Component) : bool :=
  quantity_in_stock c <=? minimum_quantity c.

Definition is_out (c : Component) : bool := quantity_in_stock c =? 0.

(** A BOM line whose confidence is below the float 0.7. *)
Definition is_low_confidence (it : CircuitBOMItem) : bool :=
  if Qlt_le_dec (confidence_score it) float_0_7
  then true else false.

(** The distinct elements of a list, in the order of their first
    occurrence. *)
Fixpoint first_keys (l : list string) : list string :=
  match l with
  | [] => []
  | k :: l' => k :: filter (fun x => negb (String.eqb x k)) (first_keys l')
  end.

(** The BOM lines of a given component type. *)
Definition of_component_type (k : string) (items : list CircuitBOMItem)
  : list CircuitBOMItem :=
  filter (fun it => String.eqb (component_type it) k) items.

(** The stock of every row with the given id stays a 64-bit integer when
    [delta] is added to it. *)
Definition stays_integer (db : Database) (component_id : string)
    (delta : Z) : bool :=
  forallb (fun c => negb (String.eqb (id c) component_id)
                    || int64 (quantity_in_stock c + delta))
          (components db).

(** What [update_quantity] does to one row. *)
Definition restocked (component_id : string) (delta : Z) (now : string)
    (c : Component) : Component :=
  if String.eqb (id c) component_id
  then ComponentInventoryService.set_quantity c (quantity_in_stock c + delta) now
  else c.

(** The row that [add_bom_item] inserts for a request. *)
Definition new_bom_row (circuit : string) (item : AddBOMItemRequest)
  : CircuitBOMItem :=
  {| item_id := BOMManagerService.generate_id circuit item;
     circuit_id := circuit;
     component_type := req_component_type item;
     component_value := req_component_value item;
     quantity := req_quantity item;
     reference_designator := req_reference_designator item;
     substitution_allowed := req_substitution_allowed item;
     substitution_notes := req_substitution_notes item;
     is_critical := req_is_critical item;
     position_x := req_position_x item;
     position_y := req_position_y item;
     confidence_score := req_confidence_score item |}.

(** Every character of [s] satisfies [p]. *)
Fixpoint string_forallb (p : ascii -> bool) (s : string) : bool :=
  match s with
  | EmptyString => true
  | String c s' => p c && string_forallb p s'
  end.

(** A character that a generated component id can hold: not a space, a
    slash, a hyphen or a dot, and not an upper-case letter. *)
Definition id_char (c : ascii) : bool :=
  negb (Ascii.eqb c " " || Ascii.eqb c "/" || Ascii.eqb c "-"
        || Ascii.eqb c "." || is_upper c).

(* ===================================================================== *)
(** * Facts about comparisons and ORDER BY *)
(* ===================================================================== *)

(** What ORDER BY needs of a comparison. *)
Record CmpOk {A : Type} (cmp : A -> A -> comparison) : Prop := {
  cmp_antisym : forall x y, cmp y x = CompOpp (cmp x y);
  cmp_eq_left : forall x y z, cmp x y = Eq -> cmp x z = cmp y z;
  cmp_lt_trans : forall x y z, cmp x y = Lt -> cmp y z = Lt -> cmp x z = Lt
}.

(** [x] is not placed after [y]. *)
Definition before {A : Type} (cmp : A -> A -> comparison) (x y : A) : Prop :=
  Sqlite.not_after (cmp x y) = true.

Section CmpFacts.
Context {A : Type} {cmp : A -> A -> comparison} (ok : CmpOk cmp).

Lemma before_total x y : before cmp x y \/ before cmp y x.
Proof.
  unfold before. rewrite (cmp_antisym cmp ok x y).
  destruct (cmp x y); simpl; auto.
Qed.

Lemma not_before_flip x y :
  Sqlite.not_after (cmp x y) = false -> before cmp y x.
Proof.
  unfold before. rewrite (cmp_antisym cmp ok x y).
  destruct (cmp x y); simpl; auto; discriminate.
Qed.

Lemma before_trans x y z :
  before cmp x y -> before cmp y z -> before cmp x z.
Proof.
  unfold before. intros Hxy Hyz.
  destruct (cmp x y) eqn:Exy; try discriminate.
  - rewrite (cmp_eq_left cmp ok x y z Exy). exact Hyz.
  - destruct (cmp y z) eqn:Eyz; try discriminate.
    + assert (Ezy : cmp z y = Eq)
        by (rewrite (cmp_antisym cmp ok y z), Eyz; reflexivity).
      assert (Ezx : cmp z x = Gt).
      { rewrite (cmp_eq_left cmp ok z y x Ezy).
        rewrite (cmp_antisym cmp ok x y), Exy. reflexivity. }
      rewrite (cmp_antisym cmp ok z x), Ezx. reflexivity.
    + rewrite (cmp_lt_trans cmp ok x y z Exy Eyz). reflexivity.
Qed.
End CmpFacts.

Lemma CmpOk_pullback {A B : Type} (f : A -> B) (cmp : B -> B -> comparison) :
  CmpOk cmp -> CmpOk (fun x y => cmp (f x) (f y)).
Proof.
  intros [Ha He Ht]. split; intros.
  - apply Ha.
  - now apply He.
  - now apply Ht with (f y).
Qed.

Lemma CmpOk_then {A : Type} (c1 c2 : A -> A -> comparison) :
  CmpOk c1 -> CmpOk c2 ->
  CmpOk (fun x y => Sqlite.then_compare (c1 x y) (c2 x y)).
Proof.
  intros [Ha1 He1 Ht1] [Ha2 He2 Ht2]. split.
  - intros x y. rewrite (Ha1 x y), (Ha2 x y).
    destruct (c1 x y); reflexivity.
  - intros x y z. unfold Sqlite.then_compare.
    destruct (c1 x y) eqn:E1; try discriminate. intros E2.
    rewrite (He1 x y z E1), (He2 x y z E2). reflexivity.
  - intros x y z. unfold Sqlite.then_compare.
    destruct (c1 x y) eqn:Exy; try discriminate.
    + intros E2. rewrite (He1 x y z Exy).
      destruct (c1 y z); try discriminate; auto.
      intros E3. now apply Ht2 with y.
    + intros _.
      destruct (c1 y z) eqn:Eyz; try discriminate.
      * intros _.
        assert (Ezy : c1 z y = Eq) by (rewrite (Ha1 y z), Eyz; reflexivity).
        assert (Ezx : c1 z x = Gt).
        { rewrite (He1 z y x Ezy), (Ha1 x y), Exy. reflexivity. }
        rewrite (Ha1 z x), Ezx. reflexivity.
      * intros _. rewrite (Ht1 x y z Exy Eyz). reflexivity.
Qed.


Lemma ascii_compare_lt_trans a b c :
  Ascii.compare a b = Lt -> Ascii.compare b c = Lt -> Ascii.compare a c = Lt.
Proof.
  unfold Ascii.compare. rewrite !N.compare_lt_iff. lia.
Qed.

Lemma string_compare_refl s : String.compare s s = Eq.
Proof.
  induction s as [|a s IH]; simpl; auto.
  unfold Ascii.compare. now rewrite N.compare_refl.
Qed.

Lemma string_compare_lt_trans s1 : forall s2 s3,
  String.compare s1 s2 = Lt -> String.compare s2 s3 = Lt ->
  String.compare s1 s3 = Lt.
Proof.
  induction s1 as [|a s1 IH]; intros [|b s2] [|c s3]; simpl;
    try discriminate; auto.
  destruct (Ascii.compare a b) eqn:Eab; try discriminate.
  - apply Ascii.compare_eq_iff in Eab. subst b.
    destruct (Ascii.compare a c); try discriminate; auto.
    apply IH.
  - intros _.
    destruct (Ascii.compare b c) eqn:Ebc; try discriminate.
    + apply Ascii.compare_eq_iff in Ebc. subst c. now rewrite Eab.
    + now rewrite (ascii_compare_lt_trans a b c Eab Ebc).
Qed.

Lemma CmpOk_text : CmpOk Sqlite.text_compare.
Proof.
  unfold Sqlite.text_compare. split; intros.
  - apply String.compare_antisym.
  - apply String.compare_eq_iff in H. now subst.
  - now apply string_compare_lt_trans with y.
Qed.

Lemma CmpOk_null : CmpOk Sqlite.null_compare.
Proof.
  destruct CmpOk_text as [Ha He Ht].
  split.
  - intros [x|] [y|]; simpl; auto.
  - intros [x|] [y|] [z|]; simpl; try discriminate; auto.
  - intros [x|] [y|] [z|]; simpl; try discriminate; auto. apply Ht.
Qed.

Section OrderByFacts.
Context {A : Type} (cmp : A -> A -> comparison).

Lemma insert_row_perm x l : Permutation (Sqlite.insert_row cmp x l) (x :: l).
Proof.
  induction l as [|y l IH]; simpl; auto.
  destruct (Sqlite.not_after (cmp x y)); auto.
  rewrite IH. apply perm_swap.
Qed.

Lemma order_by_perm l : Permutation (Sqlite.order_by cmp l) l.
Proof.
  induction l as [|x l IH]; simpl; auto.
  rewrite insert_row_perm. now constructor.
Qed.

Lemma order_by_In x l : In x (Sqlite.order_by cmp l) <-> In x l.
Proof.
  split; apply Permutation_in;
    [apply order_by_perm | apply Permutation_sym, order_by_perm].
Qed.

Lemma order_by_length l : List.length (Sqlite.order_by cmp l) = List.length l.
Proof. apply Permutation_length, order_by_perm. Qed.

Lemma order_by_nil l : Sqlite.order_by cmp l = [] -> l = [].
Proof.
  intros H. apply length_zero_iff_nil.
  rewrite <- order_by_length, H. reflexivity.
Qed.

Hypothesis ok : CmpOk cmp.

Lemma insert_row_sorted x l :
  StronglySorted (before cmp) l ->
  StronglySorted (before cmp) (Sqlite.insert_row cmp x l).
Proof.
  induction 1 as [|y l Hs IH Hall]; simpl.
  - constructor; constructor.
  - destruct (Sqlite.not_after (cmp x y)) eqn:E.
    + constructor.
      * now constructor.
      * constructor; [exact E|].
        eapply Forall_impl; [|exact Hall].
        intros z Hz. now apply (before_trans ok x y z).
    + constructor; [exact IH|].
      apply (Permutation_Forall (Permutation_sym (insert_row_perm x l))).
      constructor; [|exact Hall].
      now apply (not_before_flip ok).
Qed.

Lemma order_by_sorted l : StronglySorted (before cmp) (Sqlite.order_by cmp l).
Proof.
  induction l as [|x l IH]; simpl.
  - constructor.
  - now apply insert_row_sorted.
Qed.
End OrderByFacts.

(* ===================================================================== *)
(** * Facts about LIKE *)
(* ===================================================================== *)

Lemma contains_iff q s :
  contains q s = true <-> exists pre post, s = pre ++ q ++ post.
Proof.
  assert (Hsw : forall q s, starts_with q s = true <-> exists post, s = q ++ post).
  { clear. induction q as [|a q IH]; intros s; simpl.
    - split; [intros _; now exists s | auto].
    - destruct s as [|b s].
      + split; [discriminate | intros [post H]; discriminate].
      + rewrite andb_true_iff, Ascii.eqb_eq, IH. split.
        * intros [-> [post ->]]. now exists post.
        * intros [post H]. injection H as -> ->. split; eauto. }
  induction s as [|b s IH]; simpl; rewrite orb_true_iff, Hsw.
  - split.
    + intros [[post H]|H]; [|discriminate]. exists "", post. exact H.
    + intros [[|c pre] [post H]]; simpl in H; [left; eauto | discriminate].
  - rewrite IH. split.
    + intros [[post H]|[pre [post H]]].
      * exists "", post. exact H.
      * exists (String b pre), post. simpl. now rewrite H.
    + intros [[|c pre] [post H]]; simpl in H.
      * left. eauto.
      * injection H as -> ->. right. eauto.
Qed.



(** A matcher that accepts every text is accepted by [%] wherever the
    scan of the text stands. *)
Lemma star_always (m : string -> bool) :
  (forall t, m t = true) -> forall s inside, Sqlite.star m s inside = true.
Proof.
  intros Hm. induction s as [|c s IH]; intros inside; cbn [Sqlite.star].
  - apply Hm.
  - destruct (inside && Sqlite.is_continuation c); [apply IH|].
    now rewrite Hm.
Qed.

(** [%] at the end of a pattern accepts what is left of the text. *)
Lemma star_end s : forall inside,
  Sqlite.star (Sqlite.like_from "") s inside = true.
Proof.
  induction s as [|c s IH]; intros inside; cbn [Sqlite.star].
  - reflexivity.
  - destruct (inside && Sqlite.is_continuation c); [apply IH|].
    rewrite IH. apply orb_true_r.
Qed.

Lemma like_from_percent rest s :
  Sqlite.like_from (String Sqlite.percent rest) s
  = Sqlite.star (Sqlite.like_from rest) s false.
Proof. reflexivity. Qed.

Lemma like_from_percent_only s : Sqlite.like_from "%" s = true.
Proof.
  change "%" with (String Sqlite.percent "").
  rewrite like_from_percent. apply star_end.
Qed.











Lemma StronglySorted_impl {A : Type} (R S : A -> A -> Prop) l :
  (forall x y, R x y -> S x y) -> StronglySorted R l -> StronglySorted S l.
Proof.
  intros Himp. induction 1 as [|x l Hs IH Hall]; constructor; auto.
  eapply Forall_impl; [|exact Hall]. auto.
Qed.



(** The loop of [validate_bom], item by item. *)
Lemma validate_step_eq db acc it :
  BOMManagerService.validate_step db acc it
  = if is_match db it
    then {| BOMManagerService.acc_matches :=
              push (BOMManagerService.acc_matches acc) (entry_for db true it);
            BOMManagerService.acc_missing := BOMManagerService.acc_missing acc;
            BOMManagerService.acc_available_count :=
              S (BOMManagerService.acc_available_count acc) |}
    else {| BOMManagerService.acc_matches := BOMManagerService.acc_matches acc;
            BOMManagerService.acc_missing :=
              push (BOMManagerService.acc_missing acc) (entry_for db false it);
            BOMManagerService.acc_available_count :=
              BOMManagerService.acc_available_count acc |}.
Proof.
  unfold BOMManagerService.validate_step, is_match, entry_for, candidates.
  destruct (filter _ _) as [|c0 rest]; simpl; [reflexivity|].
  rewrite Z.geb_leb. reflexivity.
Qed.

Lemma validate_loop db items : forall acc,
  fold_left (BOMManagerService.validate_step db) items acc
  = {| BOMManagerService.acc_matches :=
         (BOMManagerService.acc_matches acc
            ++ map (entry_for db true) (filter (is_match db) items))%list;
       BOMManagerService.acc_missing :=
         (BOMManagerService.acc_missing acc
            ++ map (entry_for db false)
                 (filter (fun it => negb (is_match db it)) items))%list;
       BOMManagerService.acc_available_count :=
         (BOMManagerService.acc_available_count acc
            + List.length (filter (is_match db) items))%nat |}.
Proof.
  induction items as [|it items IH]; intros [ms xs n]; simpl.
  - rewrite !app_nil_r, Nat.add_0_r. reflexivity.
  - rewrite IH, validate_step_eq. unfold push.
    destruct (is_match db it); simpl;
      rewrite <- ?app_assoc; simpl; f_equal; lia.
Qed.

(** [validate_bom] returns, and what it returns. *)
Lemma validate_bom_eq db circuit :
  let items := BOMManagerService.get_bom db circuit in
  let hits := filter (is_match db) items in
  let misses := filter (fun it => negb (is_match db it)) items in
  BOMManagerService.validate_bom db circuit
  = Returned
      {| total_items := List.length items;
         available_count := List.length hits;
         missing_count := List.length misses;
         completeness :=
           match items with
           | [] => 0%Q
           | _ :: _ => (inject_Z (Z.of_nat (List.length hits))
                        / inject_Z (Z.of_nat (List.length items)))%Q
           end;
         matches := map (entry_for db true) hits;
         missing := map (entry_for db false) misses |}.
Proof.
  intros items hits misses.
  unfold BOMManagerService.validate_bom. fold items.
  rewrite validate_loop. fold hits. fold misses. simpl.
  rewrite length_map.
  destruct items as [|it rest] eqn:E; simpl bind.
  - reflexivity.
  - unfold truediv.
    destruct (Z.eqb_spec (Z.of_nat (List.length (it :: rest))) 0) as [H0|H0].
    + simpl in H0. lia.
    + reflexivity.
Qed.

Lemma shopping_loop (l : list MatchEntry) : forall acc,
  fold_left (fun sl item => push sl (BOMManagerService.shopping_entry item)) l acc
  = (acc ++ map BOMManagerService.shopping_entry l)%list.
Proof.
  induction l as [|m l IH]; intros acc; simpl.
  - now rewrite app_nil_r.
  - rewrite IH. unfold push. now rewrite <- app_assoc.
Qed.

(** Whether an item matches depends on its type, value and quantity only. *)
Lemma is_match_ext db it1 it2 :
  component_type it1 = component_type it2 ->
  component_value it1 = component_value it2 ->
  quantity it1 = quantity it2 ->
  is_match db it1 = is_match db it2.
Proof.
  unfold is_match, candidates. intros -> -> ->. reflexivity.
Qed.

(** ** Rows touched by [update_quantity] *)

Lemma update_quantity_overflow db component_id delta now :
  int64 delta = false ->
  ComponentInventoryService.update_quantity db component_id delta now
  = (db, Raised OverflowError).
Proof.
  intros H. unfold ComponentInventoryService.update_quantity.
  now rewrite H.
Qed.

Lemma update_quantity_bound db component_id delta now :
  int64 delta = true ->
  ComponentInventoryService.update_quantity db component_id delta now
  = ({| components :=
          map (fun c => if String.eqb (id c) component_id
                        then ComponentInventoryService.set_quantity c
                               (quantity_in_stock c + delta) now
                        else c)
              (components db);
        circuit_bom := circuit_bom db |},
     Returned
       (0 <? List.length
               (filter (fun c => String.eqb (id c) component_id)
                       (components db)))%nat).
Proof.
  intros H. unfold ComponentInventoryService.update_quantity.
  now rewrite H.
Qed.

Lemma update_quantity_hit db component_id delta now c :
  int64 delta = true ->
  ComponentInventoryService.get_component db component_id = Some c ->
  snd (ComponentInventoryService.update_quantity db component_id delta now)
  = Returned true
  /\ ComponentInventoryService.get_component
       (fst (ComponentInventoryService.update_quantity db component_id delta now))
       component_id
     = Some (ComponentInventoryService.set_quantity c
               (quantity_in_stock c + delta) now).
Proof.
  intros Hd. rewrite update_quantity_bound by assumption.
  unfold ComponentInventoryService.get_component. simpl.
  induction (components db) as [|c' l IH]; simpl; [discriminate|].
  destruct (String.eqb (id c') component_id) eqn:E; simpl.
  - rewrite E. intros H. injection H as ->. auto.
  - rewrite E. exact IH.
Qed.

Lemma update_quantity_miss db component_id delta now :
  int64 delta = true ->
  ComponentInventoryService.get_component db component_id = None ->
  ComponentInventoryService.update_quantity db component_id delta now
  = (db, Returned false).
Proof.
  intros Hd. rewrite update_quantity_bound by assumption.
  destruct db as [rows bom].
  unfold ComponentInventoryService.get_component. simpl. intros H.
  assert (Hrows :
    map (fun c => if String.eqb (id c) component_id
                  then ComponentInventoryService.set_quantity c
                         (quantity_in_stock c + delta) now
                  else c) rows = rows
    /\ filter (fun c => String.eqb (id c) component_id) rows = []).
  { induction rows as [|c l IH]; simpl in *; auto.
    destruct (String.eqb (id c) component_id); [discriminate|].
    destruct (IH H) as [-> ->]. auto. }
  destruct Hrows as [-> ->]. reflexivity.
Qed.

Lemma update_quantity_frame db component_id delta now :
  let db' := fst (ComponentInventoryService.update_quantity
                    db component_id delta now) in
  map id (components db') = map id (components db)
  /\ circuit_bom db' = circuit_bom db
  /\ filter (fun c => negb (String.eqb (id c) component_id)) (components db')
     = filter (fun c => negb (String.eqb (id c) component_id)) (components db).
Proof.
  destruct (int64 delta) eqn:Hd.
  2:{ rewrite update_quantity_overflow by assumption. simpl. auto. }
  rewrite update_quantity_bound by assumption. simpl.
  split; [|split; [reflexivity|]].
  - rewrite map_map. apply map_ext. intros c.
    destruct (String.eqb (id c) component_id); reflexivity.
  - induction (components db) as [|c l IH]; simpl; auto.
    destruct (String.eqb (id c) component_id) eqn:E; simpl; rewrite E; simpl.
    + exact IH.
    + now rewrite IH.
Qed.

(** ** Text *)

Lemma append_assoc (a b c : string) : (a ++ b) ++ c = a ++ b ++ c.
Proof. induction a as [|x a IH]; simpl; [reflexivity | now rewrite IH]. Qed.

Lemma count_char_append c (a b : string) :
  count_char c (a ++ b) = (count_char c a + count_char c b)%nat.
Proof. induction a as [|x a IH]; simpl; [reflexivity | rewrite IH; lia]. Qed.

Lemma count_char_concat_nl (first : string) (rest : list string) :
  count_char newline (String.concat nl (first :: rest))
  = (List.length rest + newlines_in (first :: rest))%nat.
Proof.
  unfold newlines_in. revert first.
  induction rest as [|l rest IH]; intros first.
  - simpl. lia.
  - change (String.concat nl (first :: l :: rest))
      with (first ++ nl ++ String.concat nl (l :: rest)).
    rewrite !count_char_append, IH. simpl. lia.
Qed.

Lemma digit_char_is_digit z : 0 <= z < 10 -> is_digit (digit_char z) = true.
Proof.
  intros H.
  assert (Hn : (Z.to_nat z < 10)%nat) by lia.
  unfold digit_char. generalize dependent (Z.to_nat z). intros k Hk.
  do 10 (destruct k as [|k]; [reflexivity|]).
  lia.
Qed.

Lemma count_char_uint c d :
  is_digit c = false ->
  count_char c (NilEmpty.string_of_uint d) = 0%nat.
Proof.
  intros Hc.
  induction d as [|d IH|d IH|d IH|d IH|d IH|d IH|d IH|d IH|d IH|d IH];
    cbn [count_char NilEmpty.string_of_uint]; [reflexivity|..]; rewrite IH;
    match goal with
    | |- context [Ascii.eqb ?x c] =>
        destruct (Ascii.eqb_spec x c) as [<-|_]; [discriminate Hc|reflexivity]
    end.
Qed.

(** [str] of an int holds digits and a minus sign only. *)
Lemma count_char_str_int c z :
  is_digit c = false -> c <> "-"%char -> count_char c (str_int z) = 0%nat.
Proof.
  intros Hc Hm. unfold str_int, NilZero.string_of_int, NilZero.string_of_uint.
  assert (Hu : forall d,
             count_char c (match d with
                           | Decimal.Nil => "0"
                           | _ => NilEmpty.string_of_uint d
                           end) = 0%nat).
  { intros d. destruct d; try apply (count_char_uint c _ Hc).
    cbn [count_char].
    destruct (Ascii.eqb_spec "0"%char c) as [<-|_];
      [discriminate Hc|reflexivity]. }
  destruct (Z.to_int z) as [d|d]; [apply Hu|].
  cbn [count_char].
  destruct (Ascii.eqb_spec "-"%char c) as [E|_]; [now elim Hm|].
  rewrite Hu. reflexivity.
Qed.

(** [round_half_even] is within one half of its argument. *)
Lemma round_half_even_near q :
  (Qabs (q - inject_Z (round_half_even q)) <= 1 # 2)%Q.
Proof.
  destruct q as [n d]. unfold round_half_even. cbn [Qnum Qden].
  pose proof (Z.div_mod n (Zpos d) ltac:(lia)) as Hdm.
  pose proof (Z.mod_pos_bound n (Zpos d) ltac:(lia)) as Hb.
  set (f := n / Zpos d) in *. set (r := n mod Zpos d) in *.
  assert (Hgoal : forall h, Z.abs (n - h * Zpos d) * 2 <= Zpos d ->
                  (Qabs ((n # d) - inject_Z h) <= 1 # 2)%Q).
  { intros h Hh. unfold Qle, Qabs, Qminus, Qplus, Qopp, inject_Z.
    cbn [Qnum Qden].
    replace (n * 1 + - h * Zpos d) with (n - h * Zpos d) by ring.
    rewrite Pos.mul_1_r. lia. }
  apply Hgoal.
  destruct (Z.ltb_spec (2 * r) (Zpos d)).
  - nia.
  - destruct (Z.ltb_spec (Zpos d) (2 * r)).
    + nia.
    + destruct (Z.even f); nia.
Qed.

(** [str] of an int is its decimal writing. *)
Lemma str_int_decimal z : decimal z (str_int z).
Proof.
  unfold decimal, str_int. apply NilZero.isi.
  - destruct z as [|p|p]; cbn; try discriminate.
    intros H. injection H as H. exact (DecimalPos.Unsigned.to_uint_nonnil p H).
  - destruct z as [|p|p]; cbn; try discriminate.
    intros H. injection H as H. exact (DecimalPos.Unsigned.to_uint_nonnil p H).
Qed.

Lemma nat_of_digit_char z :
  0 <= z < 10 -> nat_of_ascii (digit_char z) = (48 + Z.to_nat z)%nat.
Proof.
  intros H. unfold digit_char. apply nat_ascii_embedding. lia.
Qed.

Lemma format_2f_two_decimals q : two_decimals q (format_2f q).
Proof.
  unfold two_decimals, format_2f.
  set (h := round_half_even (Qabs q * 100)).
  exists h, (str_int (h / 100)),
    (digit_char ((h / 10) mod 10)), (digit_char (h mod 10)).
  split; [apply round_half_even_near|].
  split; [reflexivity|].
  split; [apply str_int_decimal|].
  split; apply nat_of_digit_char; apply Z.mod_pos_bound; lia.
Qed.

Lemma or_empty_designators it :
  BOMManagerService.or_empty (reference_designator it) = designators it.
Proof.
  unfold BOMManagerService.or_empty, designators.
  destruct (reference_designator it) as [[|c s]|]; reflexivity.
Qed.

Lemma export_loop (items : list CircuitBOMItem) : forall lines,
  fold_left (fun lines item => push lines (BOMManagerService.csv_line item))
            items lines
  = (lines ++ map BOMManagerService.csv_line items)%list.
Proof.
  induction items as [|it items IH]; intros lines; simpl.
  - now rewrite app_nil_r.
  - rewrite IH. unfold push. now rewrite <- app_assoc.
Qed.

Lemma export_bom_csv_eq db circuit :
  BOMManagerService.export_bom_csv db circuit
  = String.concat nl
      (BOMManagerService.csv_header
         :: map BOMManagerService.csv_line (BOMManagerService.get_bom db circuit)).
Proof.
  unfold BOMManagerService.export_bom_csv. now rewrite export_loop.
Qed.

(** ** Import *)

Lemma clean_chars s : InventoryImporter.clean s = string_map clean_char s.
Proof.
  unfold InventoryImporter.clean, replace_char, lower.
  induction s as [|c s IH]; simpl; [reflexivity|].
  f_equal; [|exact IH].
  destruct c as [[] [] [] [] [] [] [] []]; reflexivity.
Qed.



Lemma transform_rows_length rows clock :
  List.length (InventoryImporter.transform_rows rows clock) = List.length rows.
Proof.
  unfold InventoryImporter.transform_rows.
  rewrite length_map, length_combine, length_seq. lia.
Qed.







(* ===================================================================== *)
(** * Properties of the specification *)
(* ===================================================================== *)

(** ** BOM validation *)

(** C1.  For every circuit, [validate_bom] returns, and it records each
    fetched BOM item as a match exactly when the search results for the
    item's value, restricted to the item's type, are non-empty and their
    first element has enough stock; every other item is recorded as a miss.
    In both records the component is the first such result (none when there
    is no such result) and the available quantity is its stock (0 when
    there is none).  The two lists keep the order of the BOM. *)
Theorem validate_bom_classification (db : Database) (circuit : string) :
  exists v,
    BOMManagerService.validate_bom db circuit = Returned v
    /\ matches v
       = map (entry_for db true)
           (filter (is_match db) (BOMManagerService.get_bom db circuit))
    /\ missing v
       = map (entry_for db false)
           (filter (fun it => negb (is_match db it))
                   (BOMManagerService.get_bom db circuit))
    /\ (forall it, In it (BOMManagerService.get_bom db circuit) ->
          ((exists m, In m (matches v) /\ bom_item m = it)
           <-> is_match db it = true)
          /\ ((exists m, In m (missing v) /\ bom_item m = it)
              <-> is_match db it = false)).
Proof.
  eexists. split; [apply validate_bom_eq|].
  cbn [matches missing].
  split; [reflexivity|]. split; [reflexivity|].
  intros it Hit. split; split.
  - intros [m [Hm <-]].
    apply in_map_iff in Hm as [it' [<- Hf]].
    now apply filter_In in Hf.
  - intros Hmatch. exists (entry_for db true it). split; [|reflexivity].
    apply in_map, filter_In. auto.
  - intros [m [Hm <-]].
    apply in_map_iff in Hm as [it' [<- Hf]].
    apply filter_In in Hf as [_ Hf]. now apply negb_true_iff in Hf.
  - intros Hmiss. exists (entry_for db false it). split; [|reflexivity].
    apply in_map, filter_In. split; [exact Hit|].
    now apply negb_true_iff.
Qed.

(** On the sample data the resistor line is a match, with the 50 pieces of
    the sample resistor, and the capacitor line is a miss without any
    component. *)
Lemma validate_bom_classification_sample :
  exists v,
    BOMManagerService.validate_bom sample_db "test_overdrive" = Returned v
    /\ matches v = [entry_for sample_db true sample_bom_resistor]
    /\ map quantity_available (matches v) = [50]
    /\ missing v = [entry_for sample_db false sample_bom_capacitor]
    /\ map component (missing v) = [None]
    /\ (exists m, In m (matches v) /\ bom_item m = sample_bom_resistor).
Proof.
  destruct (validate_bom_classification sample_db "test_overdrive")
    as [v [Hv [Hm [Hx Hit]]]].
  exists v. split; [exact Hv|].
  split; [rewrite Hm; reflexivity|].
  split; [rewrite Hm; reflexivity|].
  split; [rewrite Hx; reflexivity|].
  split; [rewrite Hx; reflexivity|].
  assert (Hin : In sample_bom_resistor
                  (BOMManagerService.get_bom sample_db "test_overdrive"))
    by (right; left; reflexivity).
  destruct (Hit sample_bom_resistor Hin) as [[_ H] _].
  apply H. reflexivity.
Defined.

(** C2.  For every circuit, [validate_bom] returns (no division error),
    its completeness is the number of matches divided by the number of BOM
    items, and it is exactly 0 when the BOM is empty. *)
Theorem validate_bom_completeness (db : Database) (circuit : string) :
  exists v,
    BOMManagerService.validate_bom db circuit = Returned v
    /\ total_items v = List.length (BOMManagerService.get_bom db circuit)
    /\ available_count v = List.length (matches v)
    /\ match total_items v with
       | O => completeness v = 0%Q
       | S _ =>
           completeness v
           = (inject_Z (Z.of_nat (List.length (matches v)))
              / inject_Z (Z.of_nat (total_items v)))%Q
       end.
Proof.
  eexists. split; [apply validate_bom_eq|]. simpl.
  rewrite length_map.
  repeat split.
  destruct (BOMManagerService.get_bom db circuit); reflexivity.
Qed.

(** ** Shopping list *)

(** C3 as stated fails: a miss whose reference designator is the empty
    string (not null) gets no references at all, where splitting on the
    comma would give one empty reference. *)
Lemma shopping_list_blank_designator :
  exists v sl,
    BOMManagerService.validate_bom blank_designator_db "fuzz" = Returned v
    /\ BOMManagerService.get_shopping_list blank_designator_db "fuzz" = Returned sl
    /\ map references (missing_items sl) = [ [] ]
    /\ map references (map shopping_entry_plain (missing v)) = [ [""] ]
    /\ missing_items sl <> map shopping_entry_plain (missing v).
Proof.
  eexists. eexists. split; [reflexivity|]. split; [reflexivity|].
  split; [reflexivity|]. split; [reflexivity|]. discriminate.
Qed.

(** C3, amended.  For every circuit, the shopping list is the list of
    misses of [validate_bom], one entry per miss and in the same order,
    each projected to type, value, quantity and references, where the
    references are the miss's reference designator split on commas, or the
    empty list when the designator is null or the empty string; the
    returned total equals the missing count of the validation; and no entry
    of the shopping list describes an item found among the matches. *)
Theorem shopping_list_from_missing (db : Database) (circuit : string) :
  exists v sl,
    BOMManagerService.validate_bom db circuit = Returned v
    /\ BOMManagerService.get_shopping_list db circuit = Returned sl
    /\ missing_items sl = map BOMManagerService.shopping_entry (missing v)
    /\ (forall m, In m (missing v) ->
          references (BOMManagerService.shopping_entry m)
          = match reference_designator (bom_item m) with
            | None => []
            | Some EmptyString => []
            | Some s => split "," s
            end)
    /\ total_missing sl = missing_count v
    /\ (forall e m, In e (missing_items sl) -> In m (matches v) ->
          ~ describes e (bom_item m)).
Proof.
  pose proof (validate_bom_eq db circuit) as Hv. simpl in Hv.
  eexists. eexists. split; [exact Hv|].
  unfold BOMManagerService.get_shopping_list. rewrite Hv. simpl bind.
  rewrite shopping_loop. simpl app.
  split; [reflexivity|].
  cbn [missing matches missing_items total_missing missing_count].
  split; [reflexivity|].
  split; [|split].
  - intros m _. unfold BOMManagerService.shopping_entry. cbn [references].
    destruct (reference_designator (bom_item m)) as [[|c s]|]; reflexivity.
  - now rewrite !length_map.
  - intros e m He Hm [Ht [Hval Hq]].
    apply in_map_iff in He as [x [<- Hx]].
    apply in_map_iff in Hx as [it [<- Hit]].
    apply in_map_iff in Hm as [it' [<- Hit']].
    apply filter_In in Hit as [_ Hmiss].
    apply filter_In in Hit' as [_ Hhit].
    simpl in Ht, Hval, Hq.
    rewrite (is_match_ext db it it' Ht Hval Hq), Hhit in Hmiss.
    discriminate.
Qed.

(** On the sample data the shopping list holds the capacitor line only. *)
Lemma shopping_list_from_missing_sample :
  exists v sl,
    BOMManagerService.validate_bom sample_db "test_overdrive" = Returned v
    /\ BOMManagerService.get_shopping_list sample_db "test_overdrive" = Returned sl
    /\ map references (missing_items sl) = [ ["C1"; "C2"; "C3"] ]
    /\ total_missing sl = 1%nat
    /\ (forall e, In e (missing_items sl) -> ~ describes e sample_bom_resistor).
Proof.
  destruct (shopping_list_from_missing sample_db "test_overdrive")
    as [v [sl [Hv [Hsl [Hitems [Hrefs [Htotal Hdisjoint]]]]]]].
  exists v, sl.
  assert (Hv' := Hv). vm_compute in Hv'. injection Hv' as <-.
  split; [exact Hv|]. split; [exact Hsl|].
  split; [|split].
  - rewrite Hitems. cbn [missing map].
    rewrite (Hrefs _ (or_introl eq_refl)). reflexivity.
  - rewrite Htotal. reflexivity.
  - intros e He.
    apply (Hdisjoint e (entry_for sample_db true sample_bom_resistor) He).
    left. reflexivity.
Defined.

(** ** Search *)




(** ** Stock updates *)

(** C5.  [update_quantity] with a [delta] of either sign that is a 64-bit
    integer returns true for a known id and leaves the component with its
    stock plus [delta], without any clamp at zero, the stock being a
    64-bit integer before and after; no row is created or removed and the
    other rows are left as they were.  When the id is unknown it returns
    false and the database is unchanged.  A [delta] that is no 64-bit
    integer cannot be handed to the engine: the call raises OverflowError
    and nothing is written.  Adding 10 and then -20 to a component whose
    stock is 50 leaves its stock at 40. *)
Theorem update_quantity_delta (db : Database) (component_id : string) :
  (forall delta now,
     let result :=
       ComponentInventoryService.update_quantity db component_id delta now in
     map id (components (fst result)) = map id (components db)
     /\ filter (fun c => negb (String.eqb (id c) component_id))
               (components (fst result))
        = filter (fun c => negb (String.eqb (id c) component_id))
                 (components db)
     /\ (int64 delta = false -> result = (db, Raised OverflowError))
     /\ (int64 delta = true ->
         match ComponentInventoryService.get_component db component_id with
         | Some c =>
             snd result = Returned true
             /\ (int64 (quantity_in_stock c) = true ->
                 int64 (quantity_in_stock c + delta) = true ->
                 ComponentInventoryService.get_component (fst result)
                   component_id
                 = Some (ComponentInventoryService.set_quantity c
                           (quantity_in_stock c + delta) now))
         | None => result = (db, Returned false)
         end))
  /\ (forall c now1 now2,
        ComponentInventoryService.get_component db component_id = Some c ->
        quantity_in_stock c = 50 ->
        let db1 :=
          fst (ComponentInventoryService.update_quantity
                 db component_id 10 now1) in
        let db2 :=
          fst (ComponentInventoryService.update_quantity
                 db1 component_id (-20) now2) in
        option_map quantity_in_stock
          (ComponentInventoryService.get_component db2 component_id)
        = Some 40).
Proof.
  split.
  - intros delta now result.
    destruct (update_quantity_frame db component_id delta now)
      as [Hids [_ Hothers]].
    split; [exact Hids|]. split; [exact Hothers|].
    split; [now apply update_quantity_overflow|].
    intros Hd.
    destruct (ComponentInventoryService.get_component db component_id)
      as [c|] eqn:E.
    + destruct (update_quantity_hit db component_id delta now c Hd E)
        as [Hs Hg].
      split; [exact Hs|]. intros _ _. exact Hg.
    + now apply update_quantity_miss.
  - intros c now1 now2 Hc H50 db1 db2.
    destruct (update_quantity_hit db component_id 10 now1 c eq_refl Hc)
      as [_ H1].
    fold db1 in H1.
    destruct (update_quantity_hit db1 component_id (-20) now2 _ eq_refl H1)
      as [_ H2].
    fold db2 in H2. rewrite H2. simpl. f_equal. lia.
Qed.

(** The sample resistor, 50 in stock: after +10 it has 60, after +10 and
    -20 it has 40, and a delta of 2^63 is refused. *)
Lemma update_quantity_delta_sample :
  option_map quantity_in_stock
    (ComponentInventoryService.get_component
       (fst (ComponentInventoryService.update_quantity
               sample_db "resistor_10k_through_hole" 10 "t1"))
       "resistor_10k_through_hole")
  = Some 60
  /\ option_map quantity_in_stock
       (ComponentInventoryService.get_component
          (fst (ComponentInventoryService.update_quantity
                  (fst (ComponentInventoryService.update_quantity
                          sample_db "resistor_10k_through_hole" 10 "t1"))
                  "resistor_10k_through_hole" (-20) "t2"))
          "resistor_10k_through_hole")
     = Some 40
  /\ ComponentInventoryService.update_quantity
       sample_db "resistor_10k_through_hole" (2 ^ 63) "t1"
     = (sample_db, Raised OverflowError).
Proof.
  destruct (update_quantity_delta sample_db "resistor_10k_through_hole")
    as [H1 H2].
  split; [|split].
  - destruct (H1 10 "t1") as [_ [_ [_ H]]].
    destruct (H eq_refl) as [_ Hg].
    rewrite (Hg eq_refl eq_refl). reflexivity.
  - apply (H2 sample_component "t1" "t2"); reflexivity.
  - destruct (H1 (2 ^ 63) "t1") as [_ [_ [H _]]].
    apply H. reflexivity.
Defined.

(** ** Adding a BOM item *)

(** C6.  Re-adding a BOM item with an identical (circuit, type, value,
    quantity) tuple collides on the derived id, and the table, with the
    existing row, is left as it was.  What the caller gets is decided by
    the conflict clause of the primary key.  Under the engine's default
    clause the INSERT raises IntegrityError out of [add_bom_item], which
    has no handler for it, so that its test of the row count never sees
    0, and the route answers 500 with the engine's message.  Only when the
    key is declared ON CONFLICT IGNORE is the row count 0 and false
    returned, which the route answers with 500 'Failed to add BOM item'.
    A row that the schema rejects for another reason raises with the
    message of that constraint. *)
Theorem add_bom_item_duplicate (schema : Schema) (db : Database)
    (circuit : string) (item : AddBOMItemRequest) :
  bom_id_exists db (BOMManagerService.generate_id circuit item) = true ->
  fst (BOMManagerService.add_bom_item schema db circuit item) = db
  /\ fst (Routes.add_bom_item schema db circuit item) = db
  /\ match circuit_bom_check schema (new_bom_row circuit item),
           circuit_bom_conflict schema with
     | Some msg, _ =>
         snd (BOMManagerService.add_bom_item schema db circuit item)
         = Raised (IntegrityError msg)
         /\ snd (Routes.add_bom_item schema db circuit item)
            = Routes.HTTPException 500 msg
     | None, ABORT =>
         snd (BOMManagerService.add_bom_item schema db circuit item)
         = Raised (IntegrityError "UNIQUE constraint failed: circuit_bom.id")
         /\ snd (Routes.add_bom_item schema db circuit item)
            = Routes.HTTPException 500
                "UNIQUE constraint failed: circuit_bom.id"
     | None, IGNORE =>
         snd (BOMManagerService.add_bom_item schema db circuit item)
         = Returned false
         /\ snd (Routes.add_bom_item schema db circuit item)
            = Routes.HTTPException 500 "Failed to add BOM item"
     end.
Proof.
  unfold Routes.add_bom_item, BOMManagerService.add_bom_item, bom_id_exists.
  intros Hdup. cbv zeta. fold (new_bom_row circuit item). rewrite Hdup.
  destruct (circuit_bom_check schema (new_bom_row circuit item)) as [msg|];
    [|destruct (circuit_bom_conflict schema)]; repeat split.
Qed.

(** The request of tests/test_api.py posted twice.  With the primary key
    under the default clause the first call adds the row and returns true,
    and the second raises; with the key declared ON CONFLICT IGNORE the
    second returns false. *)
Lemma add_bom_item_duplicate_sample :
  BOMManagerService.add_bom_item keys_only empty_db "test_overdrive"
    sample_request
  = (added_once, Returned true)
  /\ BOMManagerService.add_bom_item keys_only added_once "test_overdrive"
       sample_request
     = (added_once,
        Raised (IntegrityError "UNIQUE constraint failed: circuit_bom.id"))
  /\ Routes.add_bom_item keys_only added_once "test_overdrive" sample_request
     = (added_once,
        Routes.HTTPException 500 "UNIQUE constraint failed: circuit_bom.id")
  /\ BOMManagerService.add_bom_item keys_ignore added_once "test_overdrive"
       sample_request
     = (added_once, Returned false).
Proof.
  split; [reflexivity|].
  destruct (add_bom_item_duplicate keys_only added_once "test_overdrive"
              sample_request eq_refl) as [Hs [Hr [Ha Hb]]].
  destruct (add_bom_item_duplicate keys_ignore added_once "test_overdrive"
              sample_request eq_refl) as [Hs' [_ [Ha' _]]].
  split; [|split].
  - rewrite (surjective_pairing (BOMManagerService.add_bom_item _ _ _ _)).
    now rewrite Hs, Ha.
  - rewrite (surjective_pairing (Routes.add_bom_item _ _ _ _)).
    now rewrite Hr, Hb.
  - rewrite (surjective_pairing (BOMManagerService.add_bom_item _ _ _ _)).
    now rewrite Hs', Ha'.
Defined.

(** ** CSV export *)

(** C7.  For every circuit, the exported text is the header line
    Type,Value,Quantity,Reference Designators,Critical,Confidence followed
    by one line per BOM item, the lines joined by newlines; a line holds
    the type, the value, the quantity in decimal, the reference
    designators between double quotes (two quotes with nothing between
    them when the item has none), Yes or No for is_critical, and the
    confidence with two decimal places, separated by commas; an empty BOM
    gives the header alone, which is one line.  The sample BOM gives the
    three lines written out below. *)
Theorem export_bom_csv_format (db : Database) (circuit : string) :
  let items := BOMManagerService.get_bom db circuit in
  let csv := BOMManagerService.export_bom_csv db circuit in
  csv = String.concat nl
          (BOMManagerService.csv_header
             :: map BOMManagerService.csv_line items)
  /\ BOMManagerService.csv_header
     = "Type,Value,Quantity,Reference Designators,Critical,Confidence"
  /\ (forall it, exists quantity_text confidence_text,
        BOMManagerService.csv_line it
        = String.concat ","
            [ component_type it;
              component_value it;
              quantity_text;
              dquote ++ designators it ++ dquote;
              if is_critical it then "Yes" else "No";
              confidence_text ]
        /\ decimal (quantity it) quantity_text
        /\ two_decimals (confidence_score it) confidence_text)
  /\ count_char newline csv
     = (List.length items
        + newlines_in (BOMManagerService.csv_header
                         :: map BOMManagerService.csv_line items))%nat
  /\ match items with
     | [] => csv = BOMManagerService.csv_header
             /\ count_char newline csv = 0%nat
     | _ :: _ => True
     end
  /\ BOMManagerService.export_bom_csv sample_db "test_overdrive"
     = "Type,Value,Quantity,Reference Designators,Critical,Confidence" ++ nl
       ++ "capacitor,100nF,3," ++ dquote ++ "C1,C2,C3" ++ dquote ++ ",No,0.88"
       ++ nl
       ++ "resistor,10k,2," ++ dquote ++ "R1,R2" ++ dquote ++ ",Yes,0.95"
  /\ BOMManagerService.csv_line blank_designator_item
     = "resistor,4k7,1," ++ dquote ++ dquote ++ ",No,1.00"
  /\ BOMManagerService.csv_line unlabelled_item
     = "diode,1N4148,12," ++ dquote ++ dquote ++ ",No,0.70".
Proof.
  intros items csv. unfold csv. rewrite export_bom_csv_eq. fold items.
  split; [reflexivity|]. split; [reflexivity|].
  split; [|split; [|split; [|repeat split]]].
  - intros it.
    exists (str_int (quantity it)), (format_2f (confidence_score it)).
    split; [|split; [apply str_int_decimal|apply format_2f_two_decimals]].
    unfold BOMManagerService.csv_line. cbn [String.concat].
    rewrite or_empty_designators, !append_assoc. reflexivity.
  - rewrite count_char_concat_nl, length_map. reflexivity.
  - destruct items; [split; reflexivity | exact I].
Qed.

(** C10.  The export route answers 404, No BOM found, whenever the text
    produced by the service holds at most one newline, and the text itself
    otherwise.  So it answers 404 for an empty BOM, and also for a BOM of
    exactly one item, for which the service produced the header and one
    data line. *)
Theorem export_route_not_found (db : Database) (circuit : string) :
  let csv := BOMManagerService.export_bom_csv db circuit in
  let not_found :=
    Routes.HTTPException 404 ("No BOM found for circuit: " ++ circuit) in
  ((count_char newline csv <= 1)%nat ->
     Routes.export_bom_csv db circuit = not_found)
  /\ ((1 < count_char newline csv)%nat ->
        Routes.export_bom_csv db circuit
        = Routes.PlainTextResponse 200 csv "text/csv")
  /\ (BOMManagerService.get_bom db circuit = [] ->
        Routes.export_bom_csv db circuit = not_found)
  /\ (forall it,
        BOMManagerService.get_bom db circuit = [it] ->
        count_char newline (BOMManagerService.csv_line it) = 0%nat ->
        csv = BOMManagerService.csv_header ++ nl ++ BOMManagerService.csv_line it
        /\ count_char newline csv = 1%nat
        /\ Routes.export_bom_csv db circuit = not_found).
Proof.
  intros csv not_found.
  assert (Hcsv : truthy csv = true).
  { unfold csv. rewrite export_bom_csv_eq.
    destruct (map _ _); reflexivity. }
  assert (Hlow : (count_char newline csv <= 1)%nat ->
                 Routes.export_bom_csv db circuit = not_found).
  { intros H. unfold Routes.export_bom_csv. fold csv. rewrite Hcsv.
    apply Nat.leb_le in H. rewrite H. reflexivity. }
  split; [exact Hlow|]. split; [|split].
  - intros H. unfold Routes.export_bom_csv. fold csv. rewrite Hcsv.
    apply Nat.leb_gt in H. rewrite H. reflexivity.
  - intros He. apply Hlow. unfold csv.
    rewrite export_bom_csv_eq, He. simpl. lia.
  - intros it Hit Hline.
    assert (Hone : count_char newline csv = 1%nat).
    { unfold csv. rewrite export_bom_csv_eq, Hit, count_char_concat_nl.
      unfold newlines_in. simpl. rewrite Hline. reflexivity. }
    split; [unfold csv; rewrite export_bom_csv_eq, Hit; reflexivity|].
    split; [exact Hone|]. apply Hlow. lia.
Qed.

(** The sample circuit reduced to its resistor line. *)
Lemma export_route_not_found_one_item :
  BOMManagerService.export_bom_csv one_item_db "test_overdrive"
  = BOMManagerService.csv_header ++ nl
      ++ BOMManagerService.csv_line sample_bom_resistor
  /\ Routes.export_bom_csv one_item_db "test_overdrive"
     = Routes.HTTPException 404 "No BOM found for circuit: test_overdrive".
Proof.
  destruct (export_route_not_found one_item_db "test_overdrive")
    as [_ [_ [_ H]]].
  destruct (H sample_bom_resistor eq_refl eq_refl) as [Hcsv [_ Hroute]].
  split; [exact Hcsv | exact Hroute].
Defined.

(** ** CSV import *)







(* ===================================================================== *)
(** * Further properties of the services *)
(* ===================================================================== *)

(** ** Listings *)

Lemma CmpOk_list_order : CmpOk ComponentInventoryService.list_order.
Proof.
  unfold ComponentInventoryService.list_order.
  apply (CmpOk_then
           (fun c1 c2 => Sqlite.text_compare (type c1) (type c2))
           (fun c1 c2 => Sqlite.null_compare (value c1) (value c2))).
  - apply (CmpOk_pullback type), CmpOk_text.
  - apply (CmpOk_pullback value), CmpOk_null.
Qed.

Lemma CmpOk_bom_order : CmpOk BOMManagerService.bom_order.
Proof.
  unfold BOMManagerService.bom_order.
  apply (CmpOk_then
           (fun a b => Sqlite.text_compare (component_type a) (component_type b))
           (fun a b => Sqlite.text_compare (component_value a)
                                           (component_value b))).
  - apply (CmpOk_pullback component_type), CmpOk_text.
  - apply (CmpOk_pullback component_value), CmpOk_text.
Qed.

Lemma list_order_before c1 c2 :
  before ComponentInventoryService.list_order c1 c2 -> type_value_before c1 c2.
Proof.
  unfold before, ComponentInventoryService.list_order, type_value_before,
    Sqlite.then_compare.
  destruct (Sqlite.text_compare (type c1) (type c2)) eqn:Et; auto.
  - intros H. right. split.
    + now apply String.compare_eq_iff.
    + intros Hg. rewrite Hg in H. discriminate.
  - discriminate.
Qed.

Lemma bom_order_before a b :
  before BOMManagerService.bom_order a b -> bom_line_before a b.
Proof.
  unfold before, BOMManagerService.bom_order, bom_line_before,
    Sqlite.then_compare.
  destruct (Sqlite.text_compare (component_type a) (component_type b)) eqn:Et;
    auto.
  - intros H. right. split.
    + now apply String.compare_eq_iff.
    + intros Hg. rewrite Hg in H. discriminate.
  - discriminate.
Qed.

Lemma list_sorted l :
  StronglySorted type_value_before
    (Sqlite.order_by ComponentInventoryService.list_order l).
Proof.
  apply StronglySorted_impl
    with (R := before ComponentInventoryService.list_order).
  - intros x y. apply list_order_before.
  - apply order_by_sorted, CmpOk_list_order.
Qed.

(** X1.  Without a type, [list_components] returns all the components,
    each row once; with a type it returns exactly the components of that
    type.  In both cases the result is ordered by type, then value. *)
Theorem list_components_listing (db : Database) (comp_type : option ComponentType) :
  let listed := ComponentInventoryService.list_components db comp_type in
  Permutation listed
    (match comp_type with
     | Some t =>
         filter (fun c => String.eqb (type c) (enum_value t)) (components db)
     | None => components db
     end)
  /\ (forall c, In c listed <->
        In c (components db)
        /\ match comp_type with
           | Some t => type c = enum_value t
           | None => True
           end)
  /\ StronglySorted type_value_before listed.
Proof.
  intros listed. unfold listed, ComponentInventoryService.list_components.
  destruct comp_type as [t|].
  - assert (Ht : truthy (enum_value t) = true) by (destruct t; reflexivity).
    rewrite Ht. split; [apply order_by_perm|]. split; [|apply list_sorted].
    intros c. rewrite order_by_In, filter_In, String.eqb_eq. reflexivity.
  - split; [apply order_by_perm|]. split; [|apply list_sorted].
    intros c. rewrite order_by_In. tauto.
Qed.

(** X2.  [get_low_stock] returns exactly the components whose stock is at
    most their minimum quantity, each row once, ordered by type, then
    value. *)
Theorem get_low_stock_listing (db : Database) :
  let listed := ComponentInventoryService.get_low_stock db in
  Permutation listed (filter is_low (components db))
  /\ (forall c, In c listed <->
        In c (components db) /\ quantity_in_stock c <= minimum_quantity c)
  /\ StronglySorted type_value_before listed.
Proof.
  intros listed. unfold listed, ComponentInventoryService.get_low_stock.
  split; [apply order_by_perm|]. split; [|apply list_sorted].
  intros c. rewrite order_by_In, filter_In, Z.leb_le. reflexivity.
Qed.

(** X3.  [get_bom] returns exactly the BOM rows of the circuit, each row
    once and no row of another circuit, ordered by component type, then
    component value. *)
Theorem get_bom_listing (db : Database) (circuit : string) :
  let items := BOMManagerService.get_bom db circuit in
  Permutation items
    (filter (fun it => String.eqb (circuit_id it) circuit) (circuit_bom db))
  /\ (forall it, In it items <->
        In it (circuit_bom db) /\ circuit_id it = circuit)
  /\ StronglySorted bom_line_before items.
Proof.
  intros items. unfold items, BOMManagerService.get_bom.
  split; [apply order_by_perm|]. split.
  - intros it. rewrite order_by_In, filter_In, String.eqb_eq. reflexivity.
  - apply StronglySorted_impl with (R := before BOMManagerService.bom_order).
    + intros x y. apply bom_order_before.
    + apply order_by_sorted, CmpOk_bom_order.
Qed.

(** ** Sums, counts and groups *)

Lemma sql_sum_from {A : Type} (e : A -> Z) (rows : list A) : forall start,
  fold_left (fun total r => total + e r) rows start = start + sum_of e rows.
Proof.
  unfold sum_of. induction rows as [|r rows IH]; intros start; simpl.
  - lia.
  - rewrite IH. lia.
Qed.

Lemma sql_sum_eq {A : Type} (e : A -> Z) (rows : list A) :
  Sqlite.sql_sum e rows = sum_of e rows.
Proof. unfold Sqlite.sql_sum. now rewrite sql_sum_from. Qed.

(** When the magnitudes fit, so does the sum, and the sum of any part of
    the rows. *)
Lemma sum_fits_spec {A : Type} (e : A -> Z) (rows : list A) :
  Sqlite.sum_fits e rows = true
  <-> sum_of (fun r => Z.abs (e r)) rows < 2 ^ 63.
Proof.
  unfold Sqlite.sum_fits.
  rewrite (sql_sum_from (fun r => Z.abs (e r)) rows 0), Z.add_0_l.
  apply Z.ltb_lt.
Qed.

Lemma sum_of_abs_filter {A : Type} (e : A -> Z) (p : A -> bool) (l : list A) :
  Z.abs (sum_of e (filter p l)) <= sum_of (fun r => Z.abs (e r)) l.
Proof.
  unfold sum_of. induction l as [|x l IH]; cbn [filter map fold_right].
  - reflexivity.
  - destruct (p x); cbn [map fold_right]; lia.
Qed.

Lemma sum_of_abs {A : Type} (e : A -> Z) (l : list A) :
  Z.abs (sum_of e l) <= sum_of (fun r => Z.abs (e r)) l.
Proof.
  unfold sum_of. induction l as [|x l IH]; cbn [map fold_right]; lia.
Qed.

Lemma int64_abs z : Z.abs z < 2 ^ 63 -> int64 z = true.
Proof.
  intros H. unfold int64. apply andb_true_iff.
  rewrite Z.leb_le, Z.ltb_lt. lia.
Qed.

Lemma sum_of_app {A : Type} (f : A -> Z) (l1 l2 : list A) :
  sum_of f (l1 ++ l2) = sum_of f l1 + sum_of f l2.
Proof.
  unfold sum_of. induction l1 as [|x l1 IH]; simpl; [reflexivity|].
  rewrite IH. lia.
Qed.

Lemma sum_of_perm {A : Type} (f : A -> Z) (l1 l2 : list A) :
  Permutation l1 l2 -> sum_of f l1 = sum_of f l2.
Proof.
  unfold sum_of. induction 1; simpl; lia.
Qed.

Lemma sum_of_indicator {A : Type} (p : A -> bool) (l : list A) :
  sum_of (fun x => if p x then 1 else 0) l = count_where p l.
Proof.
  unfold sum_of, count_where. induction l as [|x l IH]; [reflexivity|].
  cbn [map fold_right filter]. rewrite IH.
  destruct (p x); cbn [List.length]; rewrite ?Nat2Z.inj_succ; lia.
Qed.

Lemma sum_of_ones {A : Type} (l : list A) :
  sum_of (fun _ => 1) l = Z.of_nat (List.length l).
Proof.
  unfold sum_of. induction l as [|x l IH]; [reflexivity|].
  cbn [map fold_right List.length]. rewrite IH, Nat2Z.inj_succ. lia.
Qed.

Lemma sum_of_flat_map {A B : Type} (f : B -> Z) (g : A -> list B) (l : list A) :
  sum_of (fun x => sum_of f (g x)) l = sum_of f (flat_map g l).
Proof.
  induction l as [|x l IH]; simpl; [reflexivity|].
  rewrite sum_of_app, <- IH. reflexivity.
Qed.

Lemma sum_of_map {A B : Type} (f : B -> Z) (g : A -> B) (l : list A) :
  sum_of f (map g l) = sum_of (fun x => f (g x)) l.
Proof. unfold sum_of. now rewrite map_map. Qed.

Lemma sum_of_ext {A : Type} (f g : A -> Z) (l : list A) :
  (forall x, f x = g x) -> sum_of f l = sum_of g l.
Proof. intros H. unfold sum_of. f_equal. now apply map_ext. Qed.

Lemma count_where_perm {A : Type} (p : A -> bool) (l1 l2 : list A) :
  Permutation l1 l2 -> count_where p l1 = count_where p l2.
Proof. intros H. rewrite <- !sum_of_indicator. now apply sum_of_perm. Qed.

Section Groups.
Context {A : Type} (key : A -> string).

Let rows_of (rows : list A) (k : string) : list A :=
  filter (fun r => String.eqb (key r) k) rows.

Lemma rows_of_other r rows ks :
  ~ In (key r) ks ->
  flat_map (rows_of (r :: rows)) ks = flat_map (rows_of rows) ks.
Proof.
  induction ks as [|k ks IH]; intros Hn; simpl; [reflexivity|].
  rewrite IH by (intros H; apply Hn; now right).
  unfold rows_of at 1. simpl.
  destruct (String.eqb_spec (key r) k) as [E|E]; [|reflexivity].
  elim Hn. now left.
Qed.

Lemma rows_of_cons r rows ks :
  NoDup ks -> In (key r) ks ->
  Permutation (flat_map (rows_of (r :: rows)) ks)
              (r :: flat_map (rows_of rows) ks).
Proof.
  induction 1 as [|k ks Hk Hnd IH]; intros Hin; [destruct Hin|].
  simpl. unfold rows_of at 1. simpl.
  destruct (String.eqb_spec (key r) k) as [E|E].
  - rewrite rows_of_other by (rewrite E; exact Hk). reflexivity.
  - destruct Hin as [Hin|Hin]; [now elim E|].
    rewrite (IH Hin). fold (rows_of rows k).
    apply Permutation_sym, Permutation_middle.
Qed.

Lemma rows_of_nil ks : flat_map (rows_of []) ks = [].
Proof. induction ks; simpl; auto. Qed.

(** Groups over distinct keys that cover the rows hold every row once. *)
Lemma groups_cover rows ks :
  NoDup ks -> (forall r, In r rows -> In (key r) ks) ->
  Permutation (flat_map (rows_of rows) ks) rows.
Proof.
  intros Hnd. induction rows as [|r rows IH]; intros Hcov.
  - now rewrite rows_of_nil.
  - rewrite rows_of_cons by (auto; apply Hcov; now left).
    constructor. apply IH. intros x Hx. apply Hcov. now right.
Qed.

Lemma group_by_keys rows :
  map fst (Sqlite.group_by key rows)
  = nodup string_dec (Sqlite.order_by Sqlite.text_compare (map key rows)).
Proof.
  unfold Sqlite.group_by. rewrite map_map. simpl. apply map_id.
Qed.

Lemma group_by_keys_NoDup rows : NoDup (map fst (Sqlite.group_by key rows)).
Proof. rewrite group_by_keys. apply NoDup_nodup. Qed.

Lemma group_by_key_In rows k :
  In k (map fst (Sqlite.group_by key rows)) <-> exists r, In r rows /\ key r = k.
Proof.
  rewrite group_by_keys, nodup_In, order_by_In, in_map_iff.
  split; intros [r [H1 H2]]; exists r; auto.
Qed.

Lemma group_by_rows rows :
  Permutation (flat_map snd (Sqlite.group_by key rows)) rows.
Proof.
  unfold Sqlite.group_by. rewrite flat_map_concat_map, map_map.
  rewrite <- flat_map_concat_map.
  apply groups_cover.
  - apply NoDup_nodup.
  - intros r Hr. rewrite nodup_In, order_by_In. now apply in_map.
Qed.

(** Summing an expression group by group sums it over all the rows. *)
Lemma group_by_sum (f : A -> Z) rows :
  sum_of (fun g => sum_of f (snd g)) (Sqlite.group_by key rows) = sum_of f rows.
Proof.
  rewrite (sum_of_flat_map f snd). apply sum_of_perm, group_by_rows.
Qed.

Lemma lookup_keyed {V : Type} (F : string -> V) (ks : list string) k :
  lookup (map (fun x => (x, F x)) ks) k
  = if in_dec string_dec k ks then Some (F k) else None.
Proof.
  unfold lookup. induction ks as [|k' ks IH]; simpl; [reflexivity|].
  destruct (String.eqb_spec k' k) as [E|Hne]; simpl.
  - destruct (string_dec k' k) as [?|H]; [now rewrite E | now elim H].
  - rewrite IH. destruct (string_dec k' k) as [H|?]; [now elim Hne|].
    destruct (in_dec string_dec k ks); reflexivity.
Qed.

Lemma group_by_lookup {V : Type} (h : list A -> V) rows k :
  lookup (map (fun g : string * list A => (fst g, h (snd g)))
              (Sqlite.group_by key rows)) k
  = match filter (fun r => String.eqb (key r) k) rows with
    | [] => None
    | _ :: _ => Some (h (filter (fun r => String.eqb (key r) k) rows))
    end.
Proof.
  unfold Sqlite.group_by. rewrite map_map. cbn [fst snd].
  rewrite (lookup_keyed
             (fun x => h (filter (fun r => String.eqb (key r) x) rows))).
  destruct (in_dec string_dec k _) as [Hin|Hout].
  - rewrite nodup_In, order_by_In, in_map_iff in Hin.
    destruct Hin as [r [E Hr]].
    assert (Hf : In r (filter (fun r => String.eqb (key r) k) rows))
      by (apply filter_In; split; [exact Hr | now apply String.eqb_eq]).
    destruct (filter (fun r => String.eqb (key r) k) rows);
      [destruct Hf | reflexivity].
  - destruct (filter (fun r => String.eqb (key r) k) rows) as [|r l] eqn:E;
      [reflexivity|].
    elim Hout. rewrite nodup_In, order_by_In, in_map_iff.
    assert (Hf : In r (filter (fun r => String.eqb (key r) k) rows))
      by (rewrite E; now left).
    apply filter_In in Hf as [Hr He]. apply String.eqb_eq in He. eauto.
Qed.
End Groups.

Lemma dict_set_new {V : Type} (d : list (string * V)) k v :
  ~ In k (map fst d) -> dict_set d k v = (d ++ [(k, v)])%list.
Proof.
  induction d as [|[k' v'] d IH]; simpl; intros Hn; [reflexivity|].
  destruct (String.eqb_spec k' k) as [E|E].
  - elim Hn. now left.
  - rewrite IH; [reflexivity|]. intros H. apply Hn. now right.
Qed.

(** ** Inventory statistics *)

Lemma inventory_statistics_loop (rows : list (string * (Z * Z * Z * Z))) :
  forall acc,
  NoDup (map fst rows) ->
  (forall k, In k (map fst rows) -> ~ In k (map fst (stock_by_type acc))) ->
  fold_left ComponentInventoryService.statistics_step rows acc
  = {| total_types :=
         total_types acc + sum_of (fun r => fst (fst (fst (snd r)))) rows;
       total_units :=
         total_units acc + sum_of (fun r => snd (fst (fst (snd r)))) rows;
       stock_by_type :=
         (stock_by_type acc
            ++ map (fun r => (fst r,
                              {| types := fst (fst (fst (snd r)));
                                 units_in_stock := snd (fst (fst (snd r))) |}))
                 rows)%list;
       low_stock_count :=
         low_stock_count acc + sum_of (fun r => snd (fst (snd r))) rows;
       out_of_stock_count :=
         out_of_stock_count acc + sum_of (fun r => snd (snd r)) rows |}.
Proof.
  induction rows as [|[k [[[n u] lo] out]] rows IH]; intros acc Hnd Hfresh.
  - destruct acc. unfold sum_of. simpl. rewrite app_nil_r, !Z.add_0_r.
    reflexivity.
  - cbn [fold_left]. inversion Hnd as [|? ? Hk Hnd']; subst.
    rewrite IH; [| exact Hnd' |].
    + unfold ComponentInventoryService.statistics_step.
      cbn [total_types total_units stock_by_type low_stock_count
           out_of_stock_count fst snd].
      rewrite dict_set_new by (apply Hfresh; now left).
      unfold sum_of. cbn [map fold_right fst snd].
      rewrite <- app_assoc. cbn [app]. f_equal; lia.
    + intros k' Hk'. unfold ComponentInventoryService.statistics_step.
      cbn [stock_by_type].
      rewrite dict_set_new by (apply Hfresh; now left).
      rewrite map_app, in_app_iff. cbn [map fst In].
      intros [H|[H|[]]].
      * apply (Hfresh k'); [now right | exact H].
      * subst k'. now apply Hk.
Qed.

Lemma inventory_statistics_eq db :
  ComponentInventoryService.get_statistics db
  = {| total_types := Z.of_nat (List.length (components db));
       total_units := sum_of quantity_in_stock (components db);
       stock_by_type :=
         map (fun g : string * list Component =>
                (fst g,
                 {| types := Z.of_nat (List.length (snd g));
                    units_in_stock := sum_of quantity_in_stock (snd g) |}))
             (Sqlite.group_by type (components db));
       low_stock_count := count_where is_low (components db);
       out_of_stock_count := count_where is_out (components db) |}.
Proof.
  unfold ComponentInventoryService.get_statistics,
    ComponentInventoryService.statistics_rows.
  rewrite inventory_statistics_loop.
  - cbn [total_types total_units stock_by_type low_stock_count
         out_of_stock_count app].
    rewrite !sum_of_map, map_map. cbn [fst snd].
    f_equal.
    + rewrite <- (sum_of_ones (components db)),
        <- (group_by_sum type (fun _ => 1) (components db)).
      apply sum_of_ext. intros g. unfold Sqlite.sql_count.
      now rewrite sum_of_ones.
    + rewrite <- (group_by_sum type quantity_in_stock (components db)).
      apply sum_of_ext. intros g. now rewrite sql_sum_eq.
    + apply map_ext. intros g. unfold Sqlite.sql_count.
      now rewrite sql_sum_eq.
    + rewrite <- sum_of_indicator,
        <- (group_by_sum type _ (components db)).
      apply sum_of_ext. intros g. unfold Sqlite.sql_count_when.
      now rewrite sql_sum_eq.
    + rewrite <- sum_of_indicator,
        <- (group_by_sum type _ (components db)).
      apply sum_of_ext. intros g. unfold Sqlite.sql_count_when.
      now rewrite sql_sum_eq.
  - rewrite map_map. cbn [fst]. apply group_by_keys_NoDup.
  - intros k _ [].
Qed.

(** X4.  The totals of the inventory statistics, for an inventory whose
    stocks add up within the 64-bit integers: [total_types] is the number
    of components, [total_units] the sum of their stocks, which is a
    64-bit integer, [low_stock_count] the number of components that
    [get_low_stock] returns, and [out_of_stock_count] the number of
    components whose stock is 0.  With no component at all every total is
    0. *)
Theorem inventory_statistics_totals (db : Database) :
  Sqlite.sum_fits quantity_in_stock (components db) = true ->
  let stats := ComponentInventoryService.get_statistics db in
  total_types stats = Z.of_nat (List.length (components db))
  /\ total_units stats = sum_of quantity_in_stock (components db)
  /\ int64 (total_units stats) = true
  /\ low_stock_count stats
     = Z.of_nat (List.length (ComponentInventoryService.get_low_stock db))
  /\ out_of_stock_count stats = count_where is_out (components db).
Proof.
  intros Hfit stats. unfold stats. rewrite inventory_statistics_eq.
  cbn [total_types total_units low_stock_count out_of_stock_count].
  apply sum_fits_spec in Hfit.
  pose proof (sum_of_abs quantity_in_stock (components db)) as Habs.
  split; [reflexivity|]. split; [reflexivity|].
  split; [apply int64_abs; lia|]. split; [|reflexivity].
  unfold ComponentInventoryService.get_low_stock.
  rewrite order_by_length. reflexivity.
Qed.

(** The sample inventory: one component, 50 units, none low or out. *)
Lemma inventory_statistics_totals_sample :
  total_types (ComponentInventoryService.get_statistics sample_db) = 1
  /\ total_units (ComponentInventoryService.get_statistics sample_db) = 50
  /\ low_stock_count (ComponentInventoryService.get_statistics sample_db) = 0
  /\ out_of_stock_count (ComponentInventoryService.get_statistics sample_db)
     = 0.
Proof.
  destruct (inventory_statistics_totals sample_db eq_refl)
    as [H1 [H2 [_ [H3 H4]]]].
  rewrite H1, H2, H3, H4. repeat split.
Defined.

(** X5.  The [by_type] dict of the inventory statistics, for an inventory
    whose stocks add up within the 64-bit integers, has one entry for each
    type that has a component and none for any other type; the entry of a
    type holds the number of components of that type and the sum of their
    stocks, a 64-bit integer. *)
Theorem inventory_statistics_by_type (db : Database) (k : string) :
  Sqlite.sum_fits quantity_in_stock (components db) = true ->
  let stats := ComponentInventoryService.get_statistics db in
  let of_type := filter (fun c => String.eqb (type c) k) (components db) in
  NoDup (map fst (stock_by_type stats))
  /\ lookup (stock_by_type stats) k
     = match of_type with
       | [] => None
       | _ :: _ =>
           Some {| types := Z.of_nat (List.length of_type);
                   units_in_stock := sum_of quantity_in_stock of_type |}
       end
  /\ int64 (sum_of quantity_in_stock of_type) = true.
Proof.
  intros Hfit stats of_type. unfold stats. rewrite inventory_statistics_eq.
  cbn [stock_by_type]. split; [|split].
  - rewrite map_map. cbn [fst]. apply group_by_keys_NoDup.
  - apply (group_by_lookup type
             (fun g => {| types := Z.of_nat (List.length g);
                          units_in_stock := sum_of quantity_in_stock g |})).
  - apply sum_fits_spec in Hfit.
    pose proof (sum_of_abs_filter quantity_in_stock
                  (fun c => String.eqb (type c) k) (components db)) as Habs.
    apply int64_abs. fold of_type in Habs. lia.
Qed.

(** The sample inventory has 50 units of resistors and no capacitor. *)
Lemma inventory_statistics_by_type_sample :
  lookup (stock_by_type (ComponentInventoryService.get_statistics sample_db))
         "resistor"
  = Some {| types := 1; units_in_stock := 50 |}
  /\ lookup (stock_by_type (ComponentInventoryService.get_statistics sample_db))
            "capacitor"
     = None.
Proof.
  destruct (inventory_statistics_by_type sample_db "resistor" eq_refl)
    as [_ [H1 _]].
  destruct (inventory_statistics_by_type sample_db "capacitor" eq_refl)
    as [_ [H2 _]].
  split; [rewrite H1 | rewrite H2]; reflexivity.
Defined.

(** X6.  When no component has a negative minimum quantity, every
    component that is out of stock is also low on stock, so
    [out_of_stock_count] is at most [low_stock_count]. *)
Theorem out_of_stock_at_most_low_stock (db : Database) :
  (forall c, In c (components db) -> 0 <= minimum_quantity c) ->
  out_of_stock_count (ComponentInventoryService.get_statistics db)
  <= low_stock_count (ComponentInventoryService.get_statistics db).
Proof.
  intros Hmin. rewrite inventory_statistics_eq.
  cbn [low_stock_count out_of_stock_count]. unfold count_where.
  apply Nat2Z.inj_le.
  induction (components db) as [|c l IH]; [reflexivity|].
  assert (IH' := IH (fun x Hx => Hmin x (or_intror Hx))).
  pose proof (Hmin c (or_introl eq_refl)) as Hc.
  cbn [filter]. unfold is_out at 1, is_low at 1.
  destruct (Z.eqb_spec (quantity_in_stock c) 0) as [E|E];
    destruct (Z.leb_spec (quantity_in_stock c) (minimum_quantity c));
    cbn [List.length]; lia.
Qed.

(** The sample inventory: nothing out of stock, nothing low. *)
Lemma out_of_stock_at_most_low_stock_sample :
  out_of_stock_count (ComponentInventoryService.get_statistics sample_db)
  <= low_stock_count (ComponentInventoryService.get_statistics sample_db).
Proof.
  apply out_of_stock_at_most_low_stock.
  intros c [<-|[]]. simpl. lia.
Defined.

(** ** BOM statistics *)

Lemma bom_statistics_loop (rows : list (string * (Z * Z * Z))) :
  forall acc,
  NoDup (map fst rows) ->
  (forall k, In k (map fst rows) -> ~ In k (map fst (bom_by_type acc))) ->
  fold_left BOMManagerService.statistics_step rows acc
  = {| bom_total_items :=
         bom_total_items acc + sum_of (fun r => fst (fst (snd r))) rows;
       bom_by_type :=
         (bom_by_type acc
            ++ map (fun r => (fst r, fst (fst (snd r)))) rows)%list;
       critical_count :=
         critical_count acc + sum_of (fun r => snd (fst (snd r))) rows;
       low_confidence_count :=
         low_confidence_count acc + sum_of (fun r => snd (snd r)) rows |}.
Proof.
  induction rows as [|[k [[n cr] lo]] rows IH]; intros acc Hnd Hfresh.
  - destruct acc. unfold sum_of. simpl. rewrite app_nil_r, !Z.add_0_r.
    reflexivity.
  - cbn [fold_left]. inversion Hnd as [|? ? Hk Hnd']; subst.
    rewrite IH; [| exact Hnd' |].
    + unfold BOMManagerService.statistics_step.
      cbn [bom_total_items bom_by_type critical_count low_confidence_count
           fst snd].
      rewrite dict_set_new by (apply Hfresh; now left).
      unfold sum_of. cbn [map fold_right fst snd].
      rewrite <- app_assoc. cbn [app]. f_equal; lia.
    + intros k' Hk'. unfold BOMManagerService.statistics_step.
      cbn [bom_by_type].
      rewrite dict_set_new by (apply Hfresh; now left).
      rewrite map_app, in_app_iff. cbn [map fst In].
      intros [H|[H|[]]].
      * apply (Hfresh k'); [now right | exact H].
      * subst k'. now apply Hk.
Qed.

Lemma bom_statistics_eq db circuit :
  let rows :=
    filter (fun it => String.eqb (circuit_id it) circuit) (circuit_bom db) in
  BOMManagerService.get_statistics db circuit
  = {| bom_total_items := Z.of_nat (List.length rows);
       bom_by_type :=
         map (fun g : string * list CircuitBOMItem =>
                (fst g, Z.of_nat (List.length (snd g))))
             (Sqlite.group_by component_type rows);
       critical_count := count_where is_critical rows;
       low_confidence_count := count_where is_low_confidence rows |}.
Proof.
  intros rows.
  unfold BOMManagerService.get_statistics, BOMManagerService.statistics_rows.
  fold rows.
  rewrite bom_statistics_loop.
  - cbn [bom_total_items bom_by_type critical_count low_confidence_count app].
    rewrite !sum_of_map, map_map. cbn [fst snd].
    f_equal.
    + rewrite <- (sum_of_ones rows),
        <- (group_by_sum component_type (fun _ => 1) rows).
      apply sum_of_ext. intros g. unfold Sqlite.sql_count.
      now rewrite sum_of_ones.
    + rewrite <- sum_of_indicator, <- (group_by_sum component_type _ rows).
      apply sum_of_ext. intros g. unfold Sqlite.sql_count_when.
      now rewrite sql_sum_eq.
    + rewrite <- sum_of_indicator, <- (group_by_sum component_type _ rows).
      apply sum_of_ext. intros g. unfold Sqlite.sql_count_when.
      now rewrite sql_sum_eq.
  - rewrite map_map. cbn [fst]. apply group_by_keys_NoDup.
  - intros k _ [].
Qed.

Lemma filter_perm {A : Type} (p : A -> bool) (l1 l2 : list A) :
  Permutation l1 l2 -> Permutation (filter p l1) (filter p l2).
Proof.
  induction 1 as [|x l1 l2 H IH|x y l|l1 l2 l3 H1 IH1 H2 IH2]; simpl.
  - constructor.
  - destruct (p x); auto.
  - destruct (p x), (p y); auto. apply perm_swap.
  - now transitivity (filter p l2).
Qed.

Lemma count_where_le {A : Type} (p : A -> bool) (l : list A) :
  0 <= count_where p l <= Z.of_nat (List.length l).
Proof.
  unfold count_where. pose proof (filter_length_le p l). lia.
Qed.

Lemma bom_statistics_lookup db circuit k :
  lookup (bom_by_type (BOMManagerService.get_statistics db circuit)) k
  = match of_component_type k (BOMManagerService.get_bom db circuit) with
    | [] => None
    | _ :: _ =>
        Some (Z.of_nat
                (List.length
                   (of_component_type k (BOMManagerService.get_bom db circuit))))
    end.
Proof.
  rewrite bom_statistics_eq. cbn [bom_by_type].
  set (rows := filter (fun it => String.eqb (circuit_id it) circuit)
                      (circuit_bom db)).
  set (items := BOMManagerService.get_bom db circuit).
  assert (Hperm : Permutation items rows) by apply order_by_perm.
  rewrite (group_by_lookup component_type
             (fun g => Z.of_nat (List.length g))).
  assert (Hk : Permutation (of_component_type k items)
                 (filter (fun it => String.eqb (component_type it) k) rows)).
  { unfold of_component_type. apply filter_perm. exact Hperm. }
  pose proof (Permutation_length Hk) as Hkl.
  destruct (of_component_type k items) as [|a l];
    destruct (filter (fun it => String.eqb (component_type it) k) rows)
      as [|b m]; try discriminate Hkl; [reflexivity|].
  now rewrite Hkl.
Qed.

(** X7.  The BOM statistics of a circuit count the lines that [get_bom]
    returns: [total_items] is their number, which is also the total of
    [validate_bom]; [critical_count] is the number of critical lines and
    [low_confidence_count] the number of lines whose confidence is below
    the float 0.7, both between 0 and the total; [by_type] gives, for each
    component type that has a line, the number of its lines, and has no
    entry for any other type. *)
Theorem bom_statistics_totals (db : Database) (circuit k : string) :
  let stats := BOMManagerService.get_statistics db circuit in
  let items := BOMManagerService.get_bom db circuit in
  bom_total_items stats = Z.of_nat (List.length items)
  /\ (exists v, BOMManagerService.validate_bom db circuit = Returned v
                /\ bom_total_items stats = Z.of_nat (total_items v))
  /\ critical_count stats = count_where is_critical items
  /\ low_confidence_count stats = count_where is_low_confidence items
  /\ 0 <= critical_count stats <= bom_total_items stats
  /\ 0 <= low_confidence_count stats <= bom_total_items stats
  /\ lookup (bom_by_type stats) k
     = match of_component_type k items with
       | [] => None
       | _ :: _ => Some (Z.of_nat (List.length (of_component_type k items)))
       end.
Proof.
  intros stats items.
  split; [|split; [|split; [|split; [|split; [|split]]]]];
    try apply bom_statistics_lookup;
    unfold stats; rewrite bom_statistics_eq;
    cbn [bom_total_items bom_by_type critical_count low_confidence_count];
    set (rows := filter (fun it => String.eqb (circuit_id it) circuit)
                        (circuit_bom db));
    assert (Hperm : Permutation items rows) by apply order_by_perm;
    assert (Hlen : List.length items = List.length rows)
      by now apply Permutation_length.
  - now rewrite Hlen.
  - eexists. split; [apply validate_bom_eq|]. cbn [total_items].
    fold items. now rewrite Hlen.
  - symmetry. now apply count_where_perm.
  - symmetry. now apply count_where_perm.
  - apply count_where_le.
  - apply count_where_le.
Qed.

(** ** BOM by type *)

Lemma first_keys_In k l : In k (first_keys l) <-> In k l.
Proof.
  induction l as [|a l IH]; simpl; [tauto|].
  rewrite filter_In, IH, negb_true_iff, String.eqb_neq.
  destruct (string_dec a k) as [->|Hne]; [tauto|].
  split; [tauto|]. intros [H|H]; [now elim Hne|]. right. split; auto.
Qed.

Lemma first_keys_NoDup l : NoDup (first_keys l).
Proof.
  induction l as [|a l IH]; simpl; constructor.
  - rewrite filter_In, negb_true_iff, String.eqb_neq. tauto.
  - now apply NoDup_filter.
Qed.

Lemma filter_all {A : Type} (p : A -> bool) (l : list A) :
  (forall x, In x l -> p x = true) -> filter p l = l.
Proof.
  induction l as [|x l IH]; simpl; intros H; [reflexivity|].
  rewrite (H x (or_introl eq_refl)), IH; auto.
Qed.

Lemma filter_none {A : Type} (p : A -> bool) (l : list A) :
  (forall x, In x l -> p x = false) -> filter p l = [].
Proof.
  induction l as [|x l IH]; simpl; intros H; [reflexivity|].
  rewrite (H x (or_introl eq_refl)), IH; auto.
Qed.

Lemma first_keys_snoc l k :
  first_keys (l ++ [k])
  = if in_dec string_dec k l then first_keys l else (first_keys l ++ [k])%list.
Proof.
  induction l as [|a l IH]; [reflexivity|].
  cbn [app first_keys]. rewrite IH.
  destruct (in_dec string_dec k l) as [Hin|Hout];
    destruct (in_dec string_dec k (a :: l)) as [Hin'|Hout'];
    try reflexivity.
  - elim Hout'. now right.
  - destruct Hin' as [->|Hin']; [|now elim Hout].
    rewrite filter_app. simpl. rewrite String.eqb_refl. simpl.
    now rewrite app_nil_r.
  - rewrite filter_app. simpl.
    destruct (String.eqb_spec k a) as [->|Hne]; [elim Hout'; now left|].
    reflexivity.
Qed.

(** The groups of a list of BOM lines: one per component type, in the order
    in which the types first occur. *)
Lemma by_type_loop (items : list CircuitBOMItem) :
  fold_left BOMManagerService.by_type_step items []
  = map (fun k => (k, of_component_type k items))
        (first_keys (map component_type items)).
Proof.
  induction items as [|x items IH] using rev_ind; [reflexivity|].
  rewrite fold_left_app. cbn [fold_left]. rewrite IH.
  rewrite map_app. cbn [map]. rewrite first_keys_snoc.
  set (k := component_type x).
  set (ks := first_keys (map component_type items)).
  unfold BOMManagerService.by_type_step. fold k.
  assert (Hex : existsb (fun kv : string * list CircuitBOMItem =>
                           String.eqb (fst kv) k)
                  (map (fun k0 => (k0, of_component_type k0 items)) ks) = true
                <-> In k (map component_type items)).
  { rewrite existsb_exists. unfold ks. rewrite <- first_keys_In. split.
    - intros [kv [Hkv E]]. apply in_map_iff in Hkv as [k0 [<- Hk0]].
      apply String.eqb_eq in E. simpl in E. now subst.
    - intros Hin. exists (k, of_component_type k items). split.
      + apply in_map_iff. eauto.
      + apply String.eqb_refl. }
  assert (Hsnoc : forall k0,
            of_component_type k0 (items ++ [x])
            = (of_component_type k0 items
                 ++ (if String.eqb k k0 then [x] else []))%list).
  { intros k0. unfold of_component_type. rewrite filter_app. reflexivity. }
  destruct (in_dec string_dec k (map component_type items)) as [Hin|Hout].
  - destruct Hex as [_ Hex]. rewrite (Hex Hin).
    rewrite map_map. apply map_ext. intros k0. cbn [fst snd].
    rewrite Hsnoc, (String.eqb_sym k0 k). unfold push.
    destruct (String.eqb k k0); [reflexivity | now rewrite app_nil_r].
  - assert (Hno : existsb (fun kv : string * list CircuitBOMItem =>
                             String.eqb (fst kv) k)
                    (map (fun k0 => (k0, of_component_type k0 items)) ks)
                  = false).
    { destruct (existsb _ _) eqn:E; [|reflexivity].
      elim Hout. now apply Hex. }
    rewrite Hno, dict_set_new.
    + rewrite !map_app. cbn [map fst snd]. rewrite String.eqb_refl.
      f_equal.
      * rewrite map_map. apply map_ext_in. intros k0 Hk0. cbn [fst snd].
        assert (Hne : k0 <> k).
        { intros E. apply Hout. rewrite <- E.
          apply (proj1 (first_keys_In _ _)). exact Hk0. }
        rewrite Hsnoc. apply String.eqb_neq in Hne. rewrite Hne.
        rewrite String.eqb_sym, Hne. now rewrite app_nil_r.
      * f_equal. f_equal. rewrite Hsnoc, String.eqb_refl.
        unfold of_component_type at 1. rewrite filter_none; [reflexivity|].
        intros y Hy. apply String.eqb_neq. intros E. apply Hout.
        rewrite <- E. now apply in_map.
    + rewrite map_map. cbn [fst]. rewrite map_id. unfold ks.
      now rewrite first_keys_In.
Qed.

Lemma flat_map_ext_in {A B : Type} (f g : A -> list B) (l : list A) :
  (forall x, In x l -> f x = g x) -> flat_map f l = flat_map g l.
Proof.
  induction l as [|x l IH]; simpl; intros H; [reflexivity|].
  rewrite (H x (or_introl eq_refl)), IH; auto.
Qed.

Lemma bom_line_before_type a b :
  bom_line_before a b ->
  component_type a = component_type b
  \/ Sqlite.text_compare (component_type a) (component_type b) = Lt.
Proof. intros [H|[H _]]; auto. Qed.

(** In a list ordered by type the lines of a type stand together, so the
    groups laid end to end give the list back. *)
Lemma sorted_groups_flat (items : list CircuitBOMItem) :
  StronglySorted bom_line_before items ->
  flat_map (fun k => of_component_type k items)
           (first_keys (map component_type items))
  = items.
Proof.
  induction 1 as [|x l Hs IH Hall]; [reflexivity|].
  cbn [map first_keys flat_map].
  set (tx := component_type x).
  set (ks := first_keys (map component_type l)) in *.
  unfold of_component_type at 1. cbn [filter]. fold tx.
  rewrite String.eqb_refl. cbn [app]. f_equal.
  fold (of_component_type tx l).
  (* the other groups do not see [x] *)
  rewrite (flat_map_ext_in
             (fun k => of_component_type k (x :: l))
             (fun k => of_component_type k l)).
  2:{ intros k Hk. apply filter_In in Hk as [_ Hk].
      apply negb_true_iff in Hk. unfold of_component_type. cbn [filter].
      fold tx. now rewrite String.eqb_sym, Hk. }
  transitivity (flat_map (fun k => of_component_type k l) ks); [|exact IH].
  clear IH. unfold ks. clear ks.
  destruct l as [|y l']; [reflexivity|].
  cbn [map first_keys].
  set (ty := component_type y).
  set (ks' := first_keys (map component_type l')).
  destruct (string_dec ty tx) as [E|Hne].
  - (* the group of [x] goes on with [y] *)
    rewrite E. cbn [filter flat_map]. rewrite String.eqb_refl. cbn [negb].
    f_equal. f_equal. apply filter_all.
    intros k Hk. now apply filter_In in Hk.
  - (* no line of [l] has the type of [x] *)
    assert (Hlt : Sqlite.text_compare tx ty = Lt).
    { apply Forall_inv in Hall.
      destruct (bom_line_before_type _ _ Hall) as [H|H]; [|exact H].
      elim Hne. symmetry. exact H. }
    assert (Hfresh : forall z, In z (y :: l') -> component_type z <> tx).
    { intros z [<-|Hz]; [exact Hne|]. intros Ez.
      apply StronglySorted_inv in Hs as [_ Hy].
      rewrite Forall_forall in Hy.
      destruct (bom_line_before_type _ _ (Hy z Hz)) as [H|H]; fold ty in H.
      - apply Hne. now rewrite H.
      - rewrite Ez in H. unfold Sqlite.text_compare in *.
        rewrite String.compare_antisym, Hlt in H. discriminate. }
    unfold of_component_type at 1. rewrite filter_none.
    + cbn [app]. f_equal. apply filter_all.
      intros k Hk. apply negb_true_iff, String.eqb_neq. intros Ek.
      destruct Hk as [Hk|Hk]; [apply Hne; now rewrite Hk|].
      apply filter_In in Hk as [Hk _].
      apply (proj1 (first_keys_In _ _)), in_map_iff in Hk as [z [Ez Hz]].
      apply (Hfresh z (or_intror Hz)). now rewrite Ez.
    + intros z Hz. apply String.eqb_neq. now apply Hfresh.
Qed.

Lemma get_bom_sorted db circuit :
  StronglySorted bom_line_before (BOMManagerService.get_bom db circuit).
Proof.
  unfold BOMManagerService.get_bom.
  apply StronglySorted_impl with (R := before BOMManagerService.bom_order).
  - intros x y. apply bom_order_before.
  - apply order_by_sorted, CmpOk_bom_order.
Qed.

Lemma get_bom_by_type_eq db circuit :
  BOMManagerService.get_bom_by_type db circuit
  = map (fun k => (k, of_component_type k (BOMManagerService.get_bom db circuit)))
        (first_keys (map component_type (BOMManagerService.get_bom db circuit))).
Proof. unfold BOMManagerService.get_bom_by_type. apply by_type_loop. Qed.

Lemma get_bom_by_type_lookup db circuit k :
  lookup (BOMManagerService.get_bom_by_type db circuit) k
  = match of_component_type k (BOMManagerService.get_bom db circuit) with
    | [] => None
    | _ :: _ =>
        Some (of_component_type k (BOMManagerService.get_bom db circuit))
    end.
Proof.
  rewrite get_bom_by_type_eq.
  set (items := BOMManagerService.get_bom db circuit).
  rewrite (lookup_keyed (fun k => of_component_type k items)).
  destruct (in_dec string_dec k _) as [Hin|Hout].
  - apply (proj1 (first_keys_In _ _)), in_map_iff in Hin as [it [E Hit]].
    assert (Hf : In it (of_component_type k items))
      by (apply filter_In; split; [exact Hit | now apply String.eqb_eq]).
    destruct (of_component_type k items); [destruct Hf | reflexivity].
  - destruct (of_component_type k items) as [|it l] eqn:E; [reflexivity|].
    elim Hout. apply first_keys_In, in_map_iff.
    assert (Hf : In it (of_component_type k items)) by (rewrite E; now left).
    apply filter_In in Hf as [Hit He]. apply String.eqb_eq in He. eauto.
Qed.

Lemma get_bom_by_type_flat db circuit :
  List.concat (map snd (BOMManagerService.get_bom_by_type db circuit))
  = BOMManagerService.get_bom db circuit.
Proof.
  rewrite get_bom_by_type_eq, map_map. cbn [snd].
  rewrite <- flat_map_concat_map.
  apply sorted_groups_flat, get_bom_sorted.
Qed.

(** X8.  [get_bom_by_type] has one group for each component type that has
    a line in the BOM of the circuit and none for any other type; the group
    of a type holds the lines of that type in the order of [get_bom]; and
    the groups laid end to end, in the order of the dict, are exactly the
    list that [get_bom] returns. *)
Theorem get_bom_by_type_groups (db : Database) (circuit k : string) :
  let groups := BOMManagerService.get_bom_by_type db circuit in
  let items := BOMManagerService.get_bom db circuit in
  NoDup (map fst groups)
  /\ lookup groups k
     = match of_component_type k items with
       | [] => None
       | _ :: _ => Some (of_component_type k items)
       end
  /\ List.concat (map snd groups) = items.
Proof.
  intros groups items. unfold groups, items.
  split; [|split].
  - rewrite get_bom_by_type_eq, map_map. cbn [fst]. rewrite map_id.
    apply first_keys_NoDup.
  - apply get_bom_by_type_lookup.
  - apply get_bom_by_type_flat.
Qed.

(** X9.  The BOM route and the by-type route report the same total for a
    circuit, the number of its BOM lines, and both answer with a body (an
    empty BOM gives a total of 0, not an error). *)
Theorem bom_routes_totals (db : Database) (circuit : string) :
  exists flat grouped,
    Routes.get_bom db circuit = Ok flat
    /\ Routes.get_bom_by_type db circuit = Ok grouped
    /\ Routes.bom_items flat = BOMManagerService.get_bom db circuit
    /\ Routes.bom_total flat
       = List.length (BOMManagerService.get_bom db circuit)
    /\ Routes.grouped_total grouped = Routes.bom_total flat.
Proof.
  eexists. eexists. split; [reflexivity|]. split; [reflexivity|].
  cbn [Routes.bom_items Routes.bom_total Routes.grouped_total].
  split; [reflexivity|]. split; [reflexivity|].
  rewrite <- (get_bom_by_type_flat db circuit).
  rewrite length_concat, map_map. reflexivity.
Qed.

(** ** Counts of a validation *)

Lemma filter_split_length {A : Type} (p : A -> bool) (l : list A) :
  (List.length (filter p l) + List.length (filter (fun x => negb (p x)) l)
   = List.length l)%nat.
Proof.
  induction l as [|x l IH]; [reflexivity|].
  cbn [filter]. destruct (p x); cbn [negb List.length]; lia.
Qed.

(** X10.  In the result of [validate_bom] every BOM line is counted once:
    the available and missing counts add up to the total, the missing count
    is the length of the missing list, and the completeness lies between 0
    and 1. *)
Theorem validate_bom_counts (db : Database) (circuit : string) :
  exists v,
    BOMManagerService.validate_bom db circuit = Returned v
    /\ (available_count v + missing_count v = total_items v)%nat
    /\ missing_count v = List.length (missing v)
    /\ (0 <= completeness v)%Q
    /\ (completeness v <= 1)%Q.
Proof.
  eexists. split; [apply validate_bom_eq|].
  cbn [available_count missing_count total_items missing completeness].
  set (items := BOMManagerService.get_bom db circuit).
  pose proof (filter_split_length (is_match db) items) as Hsplit.
  split; [exact Hsplit|]. split; [now rewrite length_map|].
  destruct items as [|it rest] eqn:E; [split; discriminate|].
  set (n := List.length (filter (is_match db) (it :: rest))) in *.
  set (m := List.length (it :: rest)) in *.
  assert (Hm : (0 < m)%nat) by (unfold m; simpl; lia).
  assert (Hn : (n <= m)%nat) by lia.
  assert (Hpos : (0 < inject_Z (Z.of_nat m))%Q).
  { change 0%Q with (inject_Z 0). rewrite <- Zlt_Qlt. lia. }
  split.
  - apply Qle_shift_div_l; [exact Hpos|]. rewrite Qmult_0_l.
    change 0%Q with (inject_Z 0). rewrite <- Zle_Qle. lia.
  - apply Qle_shift_div_r; [exact Hpos|]. rewrite Qmult_1_l.
    rewrite <- Zle_Qle. lia.
Qed.

(** X11.  The shopping list and the validation agree: the shopping list
    has as many entries as the validation has missing lines, which is the
    total minus the available count; it is empty exactly when every line
    of the BOM is available. *)
Theorem shopping_list_counts (db : Database) (circuit : string) :
  exists v sl,
    BOMManagerService.validate_bom db circuit = Returned v
    /\ BOMManagerService.get_shopping_list db circuit = Returned sl
    /\ total_missing sl = List.length (missing_items sl)
    /\ total_missing sl = (total_items v - available_count v)%nat
    /\ (missing_items sl = [] <-> available_count v = total_items v).
Proof.
  pose proof (validate_bom_eq db circuit) as Hv. cbv zeta in Hv.
  eexists. eexists. split; [exact Hv|].
  unfold BOMManagerService.get_shopping_list. rewrite Hv. simpl bind.
  rewrite shopping_loop. simpl app.
  split; [reflexivity|].
  cbn [total_missing missing_items missing available_count total_items].
  set (items := BOMManagerService.get_bom db circuit).
  pose proof (filter_split_length (is_match db) items) as Hsplit.
  split; [reflexivity|]. split; [rewrite !length_map; lia|].
  split.
  - intros Hnil. apply (f_equal (@List.length _)) in Hnil.
    rewrite !length_map in Hnil. simpl in Hnil. lia.
  - intros Hall. apply length_zero_iff_nil. rewrite !length_map. lia.
Qed.

(** ** Stock updates, one after the other *)

Lemma update_quantity_rows db component_id delta now :
  int64 delta = true ->
  components (fst (ComponentInventoryService.update_quantity
                     db component_id delta now))
  = map (restocked component_id delta now) (components db).
Proof. intros H. now rewrite update_quantity_bound. Qed.

Lemma update_quantity_refused db component_id delta now :
  int64 delta = false ->
  fst (ComponentInventoryService.update_quantity db component_id delta now)
  = db.
Proof. intros H. now rewrite update_quantity_overflow. Qed.

(** X12.  Two stock updates of the same component in a row, by 64-bit
    deltas whose sum is one too, the stock being a 64-bit integer before,
    between and after them, leave the database as one update by the sum of
    the two deltas does, at the time of the second; in particular adding a quantity and then
    taking it away gives every component its former stock. *)
Theorem update_quantity_twice (db : Database) (component_id : string)
    (delta1 delta2 : Z) (now1 now2 : string) :
  int64 delta1 = true -> int64 delta2 = true ->
  int64 (delta1 + delta2) = true ->
  stays_integer db component_id 0 = true ->
  stays_integer db component_id delta1 = true ->
  stays_integer db component_id (delta1 + delta2) = true ->
  let once db delta now :=
    fst (ComponentInventoryService.update_quantity db component_id delta now) in
  once (once db delta1 now1) delta2 now2 = once db (delta1 + delta2) now2
  /\ (delta2 = - delta1 ->
      map quantity_in_stock
        (components (once (once db delta1 now1) delta2 now2))
      = map quantity_in_stock (components db)).
Proof.
  intros H1 H2 H12 _ _ _ once.
  assert (Htwice : once (once db delta1 now1) delta2 now2
                   = once db (delta1 + delta2) now2).
  { unfold once. rewrite !update_quantity_bound by assumption.
    cbn [fst components circuit_bom]. f_equal.
    rewrite map_map. apply map_ext. intros c.
    destruct (String.eqb (id c) component_id) eqn:E.
    - assert (E' : String.eqb
                     (id (ComponentInventoryService.set_quantity c
                            (quantity_in_stock c + delta1) now1))
                     component_id = true) by exact E.
      rewrite E'. unfold ComponentInventoryService.set_quantity. cbn.
      f_equal. lia.
    - now rewrite E. }
  split; [exact Htwice|].
  intros Hback. rewrite Htwice. unfold once.
  rewrite update_quantity_rows by assumption. rewrite map_map.
  rewrite <- (map_id (map quantity_in_stock (components db))), map_map.
  apply map_ext. intros c. unfold restocked.
  destruct (String.eqb (id c) component_id); [|reflexivity].
  cbn. lia.
Qed.

(** Ten sample resistors in and ten out again. *)
Lemma update_quantity_twice_sample :
  map quantity_in_stock
    (components
       (fst (ComponentInventoryService.update_quantity
               (fst (ComponentInventoryService.update_quantity
                       sample_db "resistor_10k_through_hole" 10 "t1"))
               "resistor_10k_through_hole" (-10) "t2")))
  = [50].
Proof.
  destruct (update_quantity_twice sample_db "resistor_10k_through_hole"
              10 (-10) "t1" "t2" eq_refl eq_refl eq_refl eq_refl eq_refl
              eq_refl)
    as [_ H].
  exact (H eq_refl).
Defined.

(** ** Restocking and validation *)

Lemma insert_row_map {A : Type} (cmp : A -> A -> comparison) (f : A -> A) x l :
  (forall a b, cmp (f a) (f b) = cmp a b) ->
  Sqlite.insert_row cmp (f x) (map f l) = map f (Sqlite.insert_row cmp x l).
Proof.
  intros H. induction l as [|y l IH]; [reflexivity|].
  cbn [map Sqlite.insert_row]. rewrite H.
  destruct (Sqlite.not_after (cmp x y)); [reflexivity|].
  cbn [map]. now rewrite IH.
Qed.

Lemma order_by_map {A : Type} (cmp : A -> A -> comparison) (f : A -> A) l :
  (forall a b, cmp (f a) (f b) = cmp a b) ->
  Sqlite.order_by cmp (map f l) = map f (Sqlite.order_by cmp l).
Proof.
  intros H. induction l as [|x l IH]; [reflexivity|].
  cbn [map Sqlite.order_by]. rewrite IH. now apply insert_row_map.
Qed.

Lemma filter_map_same {A : Type} (p : A -> bool) (f : A -> A) l :
  (forall a, p (f a) = p a) -> filter p (map f l) = map f (filter p l).
Proof.
  intros H. induction l as [|x l IH]; [reflexivity|].
  cbn [map filter]. rewrite H, IH. destruct (p x); reflexivity.
Qed.

Lemma restocked_fields component_id delta now c :
  let c' := restocked component_id delta now c in
  id c' = id c /\ type c' = type c /\ name c' = name c
  /\ value c' = value c /\ part_number c' = part_number c
  /\ minimum_quantity c' = minimum_quantity c.
Proof.
  unfold restocked. destruct (String.eqb (id c) component_id); cbn; auto 10.
Qed.

(** A stock update changes no search result but for the stock of the
    updated component. *)
Lemma search_after_update db component_id delta now query :
  int64 delta = true ->
  ComponentInventoryService.search_components
    (fst (ComponentInventoryService.update_quantity db component_id delta now))
    query
  = map (restocked component_id delta now)
        (ComponentInventoryService.search_components db query).
Proof.
  intros Hd. unfold ComponentInventoryService.search_components.
  rewrite update_quantity_rows by assumption.
  rewrite filter_map_same, order_by_map; [reflexivity| |].
  - intros a b.
    destruct (restocked_fields component_id delta now a)
      as [_ [Ht [Hn [Hv Hp]]]].
    destruct (restocked_fields component_id delta now b)
      as [_ [Ht' [Hn' [Hv' Hp']]]].
    unfold ComponentInventoryService.search_order,
      ComponentInventoryService.search_rank.
    cbv zeta in *. now rewrite Ht, Hn, Hv, Ht', Hn', Hv'.
  - intros a.
    destruct (restocked_fields component_id delta now a)
      as [_ [Ht [Hn [Hv [Hp _]]]]].
    unfold ComponentInventoryService.search_where.
    cbv zeta in *. now rewrite Hn, Hv, Hp.
Qed.

Lemma candidates_after_update db component_id delta now it :
  int64 delta = true ->
  candidates
    (fst (ComponentInventoryService.update_quantity db component_id delta now))
    it
  = map (restocked component_id delta now) (candidates db it).
Proof.
  intros Hd. unfold candidates. rewrite search_after_update by assumption.
  apply filter_map_same. intros a.
  destruct (restocked_fields component_id delta now a) as [_ [Ht _]].
  cbv zeta in Ht. now rewrite Ht.
Qed.

Lemma filter_length_mono {A : Type} (p q : A -> bool) (l : list A) :
  (forall x, p x = true -> q x = true) ->
  (List.length (filter p l) <= List.length (filter q l))%nat.
Proof.
  intros H. induction l as [|x l IH]; [reflexivity|].
  cbn [filter]. destruct (p x) eqn:Ep.
  - rewrite (H x Ep). cbn [List.length]. lia.
  - destruct (q x); cbn [List.length]; lia.
Qed.

(** X13.  Adding stock never costs a match: after [update_quantity] with a
    delta that is not negative, every BOM line that matched still matches,
    so for every circuit the total is the same and the available count is
    at least what it was. *)
Theorem restock_keeps_matches (db : Database) (component_id : string)
    (delta : Z) (now circuit : string) :
  0 <= delta ->
  let db' :=
    fst (ComponentInventoryService.update_quantity db component_id delta now) in
  (forall it, is_match db it = true -> is_match db' it = true)
  /\ exists v v',
       BOMManagerService.validate_bom db circuit = Returned v
       /\ BOMManagerService.validate_bom db' circuit = Returned v'
       /\ total_items v' = total_items v
       /\ (available_count v <= available_count v')%nat.
Proof.
  intros Hdelta db'.
  assert (Hkeep : forall it, is_match db it = true -> is_match db' it = true).
  { intros it. unfold is_match, db'.
    destruct (int64 delta) eqn:Hd;
      [|now rewrite update_quantity_refused by assumption].
    rewrite candidates_after_update by assumption.
    destruct (candidates db it) as [|c rest]; [discriminate|].
    cbn [map]. unfold restocked.
    destruct (String.eqb (id c) component_id); [|auto].
    cbn. rewrite !Z.leb_le. lia. }
  split; [exact Hkeep|].
  eexists. eexists. split; [apply validate_bom_eq|].
  split; [apply validate_bom_eq|].
  cbn [total_items available_count].
  assert (Hbom : BOMManagerService.get_bom db' circuit
                 = BOMManagerService.get_bom db circuit).
  { unfold BOMManagerService.get_bom, db'.
    now rewrite (proj1 (proj2 (update_quantity_frame db component_id
                                 delta now))). }
  rewrite Hbom. split; [reflexivity|].
  now apply filter_length_mono.
Qed.

(** With 10 more sample resistors the resistor line still matches. *)
Lemma restock_keeps_matches_sample :
  is_match
    (fst (ComponentInventoryService.update_quantity
            sample_db "resistor_10k_through_hole" 10 "t1"))
    sample_bom_resistor = true.
Proof.
  destruct (restock_keeps_matches sample_db "resistor_10k_through_hole" 10
              "t1" "test_overdrive") as [H _]; [lia|].
  apply H. reflexivity.
Defined.

(** ** Searching for nothing *)

Lemma like_two_percent s : Sqlite.like "%%" s = true.
Proof.
  unfold Sqlite.like. change (Sqlite.c_str "%%") with (String Sqlite.percent "%").
  rewrite like_from_percent. apply star_always, like_from_percent_only.
Qed.

Lemma like_three_percent s : Sqlite.like "%%%" s = true.
Proof.
  unfold Sqlite.like.
  change (Sqlite.c_str "%%%") with (String Sqlite.percent "%%").
  rewrite like_from_percent. apply star_always. intros t.
  change "%%" with (String Sqlite.percent "%").
  rewrite like_from_percent. apply star_always, like_from_percent_only.
Qed.

(** X14.  The empty query, and the query made of a single percent sign,
    select every component: the search returns all the rows of the table,
    each once.  (The name of a component is never null, and any name
    matches these patterns.) *)
Theorem search_components_everything (db : Database) (query : string) :
  query = "" \/ query = "%" ->
  Permutation (ComponentInventoryService.search_components db query)
              (components db).
Proof.
  intros Hq. unfold ComponentInventoryService.search_components.
  rewrite order_by_perm.
  rewrite filter_all; [reflexivity|].
  intros c _. unfold ComponentInventoryService.search_where, Sqlite.like_col.
  assert (Hname : Sqlite.like ("%" ++ query ++ "%") (name c) = true).
  { destruct Hq as [->| ->].
    - apply like_two_percent.
    - apply like_three_percent. }
  rewrite Hname. destruct (value c); [|reflexivity].
  now rewrite orb_true_r.
Qed.

(** The empty query on the sample inventory. *)
Lemma search_components_everything_sample :
  Permutation (ComponentInventoryService.search_components sample_db "")
              [sample_component].
Proof.
  apply (search_components_everything sample_db ""). now left.
Defined.

(** ** Adding a BOM line *)




(** ** References of a shopping entry *)

Lemma split_join s : String.concat "," (split "," s) = s.
Proof.
  induction s as [|c s IH]; [reflexivity|].
  cbn [split].
  destruct (Ascii.eqb_spec c ","%char) as [->|Hne].
  - change (String.concat "," ("" :: split "," s))
      with (match split "," s with
            | [] => ""
            | _ :: _ => "" ++ "," ++ String.concat "," (split "," s)
            end).
    destruct (split "," s) eqn:E; [destruct s; simpl in E|].
    + discriminate.
    + destruct (Ascii.eqb a ","); [discriminate|].
      destruct (split "," s); discriminate.
    + rewrite IH. reflexivity.
  - destruct (split "," s) as [|h t] eqn:E.
    + destruct s as [|a s']; simpl in E; [discriminate|].
      destruct (Ascii.eqb a ","); [discriminate|].
      destruct (split "," s'); discriminate.
    + rewrite <- IH. destruct t; reflexivity.
Qed.

Lemma split_pieces s :
  Forall (fun piece => count_char "," piece = 0%nat) (split "," s)
  /\ List.length (split "," s) = S (count_char "," s).
Proof.
  induction s as [|c s [IHf IHl]]; [split; [repeat constructor | reflexivity]|].
  cbn [split count_char].
  destruct (Ascii.eqb_spec c ","%char) as [->|Hne].
  - split; [constructor; [reflexivity | exact IHf]|].
    cbn [List.length]. now rewrite IHl.
  - destruct (split "," s) as [|h t]; [discriminate IHl|].
    inversion IHf as [|? ? Hh Ht]; subst.
    split.
    + constructor; [|exact Ht]. cbn [count_char].
      destruct (Ascii.eqb_spec c ","%char) as [E|_]; [now elim Hne|].
      exact Hh.
    + cbn [List.length] in *. lia.
Qed.

(** X16.  The references of a shopping entry are the pieces of the
    reference designator of the missing line: joined by commas they give
    the designator back, none of them holds a comma, and a designator that
    is not empty gives one reference more than it has commas. *)
Theorem shopping_references_join (m : MatchEntry) (s : string) :
  reference_designator (bom_item m) = Some s ->
  let refs := references (BOMManagerService.shopping_entry m) in
  String.concat "," refs = s
  /\ Forall (fun piece => count_char "," piece = 0%nat) refs
  /\ (s <> "" -> List.length refs = S (count_char "," s)).
Proof.
  intros Hs refs. unfold refs, BOMManagerService.shopping_entry.
  cbn [references]. rewrite Hs.
  destruct s as [|c s']; cbn [truthy].
  - split; [reflexivity|]. split; [constructor|]. intros H. now elim H.
  - split; [apply split_join|]. split; [apply split_pieces|].
    intros _. apply split_pieces.
Qed.

(** The capacitor line of the sample: C1,C2,C3. *)
Lemma shopping_references_join_sample :
  String.concat ","
    (references (BOMManagerService.shopping_entry
                   (entry_for sample_db false sample_bom_capacitor)))
  = "C1,C2,C3".
Proof.
  destruct (shopping_references_join
              (entry_for sample_db false sample_bom_capacitor) "C1,C2,C3"
              eq_refl) as [H _].
  exact H.
Defined.

(** ** Export of two lines or more *)

(** X17.  For a circuit with at least two BOM lines the export route
    answers 200 with the text of the service, as text/csv. *)
Theorem export_route_found (db : Database) (circuit : string) :
  (2 <= List.length (BOMManagerService.get_bom db circuit))%nat ->
  Routes.export_bom_csv db circuit
  = Routes.PlainTextResponse 200
      (BOMManagerService.export_bom_csv db circuit) "text/csv".
Proof.
  intros Hlen. unfold Routes.export_bom_csv.
  assert (Hcsv : truthy (BOMManagerService.export_bom_csv db circuit) = true).
  { rewrite export_bom_csv_eq. destruct (map _ _); reflexivity. }
  assert (Hcount : (2 <= count_char newline
                           (BOMManagerService.export_bom_csv db circuit))%nat).
  { rewrite export_bom_csv_eq, count_char_concat_nl, length_map. lia. }
  rewrite Hcsv. apply Nat.leb_gt in Hcount. rewrite Hcount. reflexivity.
Qed.

(** The sample circuit has two lines. *)
Lemma export_route_found_sample :
  exists csv,
    Routes.export_bom_csv sample_db "test_overdrive"
    = Routes.PlainTextResponse 200 csv "text/csv".
Proof.
  eexists.
  apply (export_route_found sample_db "test_overdrive").
  simpl. lia.
Defined.

(** ** The importer: types *)

Lemma dict_get_value m k d :
  InventoryImporter.dict_get m k d = d
  \/ In (InventoryImporter.dict_get m k d) (map snd m).
Proof.
  induction m as [|[k' v] m IH]; simpl; [now left|].
  destruct (String.eqb k' k); [right; now left|].
  destruct IH; [now left | right; now right].
Qed.

(** X18.  [normalize_type] always gives the name of a component type:
    whatever the category cell holds, the type of the component built from
    a row is the value of a member of [ComponentType]. *)
Theorem normalize_type_valid (category : string) :
  exists t,
    component_type_of (InventoryImporter.normalize_type category) = Some t
    /\ enum_value t = InventoryImporter.normalize_type category
    /\ forall row now1 now2,
         Category row = category ->
         type (InventoryImporter.transform_row row now1 now2) = enum_value t.
Proof.
  assert (Hval : forall v,
            v = "other" \/ In v (map snd InventoryImporter.type_map) ->
            exists t, component_type_of v = Some t /\ enum_value t = v).
  { intros v [->|Hin]; [exists OTHER; split; reflexivity|].
    simpl in Hin.
    repeat (destruct Hin as [<-|Hin];
            [eexists; split; reflexivity|]).
    destruct Hin. }
  destruct (Hval (InventoryImporter.normalize_type category)) as [t [Ht Hv]].
  { unfold InventoryImporter.normalize_type. apply dict_get_value. }
  exists t. split; [exact Ht|]. split; [exact Hv|].
  intros row now1 now2 <-. now rewrite Hv.
Qed.

(** The category of the sample row. *)
Lemma normalize_type_valid_sample :
  type (InventoryImporter.transform_row sample_row "t1" "t2") = "resistor".
Proof.
  destruct (normalize_type_valid "RESISTOR") as [t [Ht [Hv Hrow]]].
  rewrite (Hrow sample_row "t1" "t2" eq_refl), Hv. reflexivity.
Defined.

Lemma ascii_case_facts c :
  is_space (ascii_lower c) = is_space c
  /\ is_space (ascii_upper c) = is_space c
  /\ ascii_upper (ascii_lower c) = ascii_upper c
  /\ ascii_upper (ascii_upper c) = ascii_upper c.
Proof.
  destruct c as [[] [] [] [] [] [] [] []]; repeat split; reflexivity.
Qed.

Lemma lstrip_map f s :
  (forall c, is_space (f c) = is_space c) ->
  lstrip (string_map f s) = string_map f (lstrip s).
Proof.
  intros H. induction s as [|c s IH]; [reflexivity|].
  cbn [string_map lstrip]. rewrite H. destruct (is_space c); auto.
Qed.

Lemma rstrip_map f s :
  (forall c, is_space (f c) = is_space c) ->
  rstrip (string_map f s) = string_map f (rstrip s).
Proof.
  intros H. induction s as [|c s IH]; [reflexivity|].
  cbn [string_map rstrip]. rewrite IH.
  destruct (rstrip s); cbn [string_map]; [|reflexivity].
  rewrite H. destruct (is_space c); reflexivity.
Qed.

Lemma string_map_map f g s :
  string_map f (string_map g s) = string_map (fun c => f (g c)) s.
Proof. induction s as [|c s IH]; simpl; [reflexivity | now rewrite IH]. Qed.

Lemma string_map_ext f g s :
  (forall c, f c = g c) -> string_map f s = string_map g s.
Proof.
  intros H. induction s as [|c s IH]; simpl; [reflexivity|].
  now rewrite H, IH.
Qed.

Lemma lstrip_spaces pre s :
  string_forallb is_space pre = true -> lstrip (pre ++ s) = lstrip s.
Proof.
  induction pre as [|c pre IH]; [reflexivity|].
  cbn [string_forallb append lstrip]. intros H.
  apply andb_true_iff in H as [Hc Hpre]. rewrite Hc. auto.
Qed.

Lemma rstrip_spaces_only post :
  string_forallb is_space post = true -> rstrip post = "".
Proof.
  induction post as [|c post IH]; [reflexivity|].
  cbn [string_forallb rstrip]. intros H.
  apply andb_true_iff in H as [Hc Hpost]. now rewrite IH, Hc.
Qed.

Lemma rstrip_spaces s post :
  string_forallb is_space post = true -> rstrip (s ++ post) = rstrip s.
Proof.
  intros H. induction s as [|c s IH].
  - simpl. now apply rstrip_spaces_only.
  - cbn [append rstrip]. now rewrite IH.
Qed.

Lemma lstrip_append s post :
  string_forallb is_space post = true ->
  rstrip (lstrip (s ++ post)) = rstrip (lstrip s).
Proof.
  intros H. induction s as [|c s IH].
  - cbn [append]. assert (Hl : lstrip post = "").
    { clear -H. induction post as [|c post IH]; [reflexivity|].
      cbn [string_forallb lstrip] in *.
      apply andb_true_iff in H as [Hc Hpost]. rewrite Hc. auto. }
    now rewrite Hl.
  - cbn [append lstrip]. destruct (is_space c); [exact IH|].
    change (String c (s ++ post)) with (String c s ++ post).
    now apply rstrip_spaces.
Qed.

(** X19.  [normalize_type] looks at a category of ASCII text regardless
    of the case of its letters and of the ASCII white space around it. *)
Theorem normalize_type_insensitive (category pre post : string) :
  is_ascii category = true ->
  string_forallb is_space pre = true ->
  string_forallb is_space post = true ->
  InventoryImporter.normalize_type (pre ++ category ++ post)
  = InventoryImporter.normalize_type category
  /\ InventoryImporter.normalize_type (lower category)
     = InventoryImporter.normalize_type category
  /\ InventoryImporter.normalize_type (upper category)
     = InventoryImporter.normalize_type category.
Proof.
  intros _ Hpre Hpost. unfold InventoryImporter.normalize_type, strip.
  split; [|split].
  - rewrite (lstrip_spaces pre _ Hpre).
    now rewrite (lstrip_append category post Hpost).
  - unfold lower, upper.
    rewrite lstrip_map, rstrip_map, string_map_map
      by (intros c; apply ascii_case_facts).
    f_equal. apply string_map_ext. intros c. apply ascii_case_facts.
  - unfold upper.
    rewrite lstrip_map, rstrip_map, string_map_map
      by (intros c; apply ascii_case_facts).
    f_equal. apply string_map_ext. intros c. apply ascii_case_facts.
Qed.

(** A category in lower case between spaces. *)
Lemma normalize_type_insensitive_sample :
  InventoryImporter.normalize_type ("  " ++ "pots" ++ " ") = "potentiometer".
Proof.
  destruct (normalize_type_insensitive "pots" "  " " " eq_refl eq_refl eq_refl)
    as [H _].
  rewrite H. reflexivity.
Defined.

(** ** The importer: ids *)

Lemma string_forallb_app p a b :
  string_forallb p (a ++ b) = string_forallb p a && string_forallb p b.
Proof.
  induction a as [|c a IH]; simpl; [reflexivity|].
  now rewrite IH, andb_assoc.
Qed.

Lemma string_forallb_map p f s :
  (forall c, p (f c) = true) -> string_forallb p (string_map f s) = true.
Proof.
  intros H. induction s as [|c s IH]; simpl; [reflexivity|].
  now rewrite H, IH.
Qed.

Lemma clean_char_facts c :
  id_char (clean_char c) = true /\ clean_char (clean_char c) = clean_char c.
Proof.
  destruct c as [[] [] [] [] [] [] [] []]; split; reflexivity.
Qed.

Lemma string_forallb_concat p sep parts :
  string_forallb p sep = true ->
  Forall (fun part => string_forallb p part = true) parts ->
  string_forallb p (String.concat sep parts) = true.
Proof.
  intros Hsep. induction 1 as [|part parts Hp Hall IH]; [reflexivity|].
  destruct parts as [|next rest]; [exact Hp|].
  change (String.concat sep (part :: next :: rest))
    with (part ++ sep ++ String.concat sep (next :: rest)).
  now rewrite !string_forallb_app, Hp, Hsep, IH.
Qed.

Lemma is_ascii_forallb s :
  is_ascii s = string_forallb (fun c => (nat_of_ascii c <? 128)%nat) s.
Proof. induction s as [|c s IH]; cbn; [reflexivity|now rewrite IH]. Qed.

Lemma is_ascii_clean s :
  is_ascii s = true -> is_ascii (InventoryImporter.clean s) = true.
Proof.
  rewrite clean_chars. induction s as [|c s IH]; [reflexivity|].
  cbn [is_ascii string_map]. intros H.
  apply andb_true_iff in H as [Hc Hs]. rewrite (IH Hs), andb_true_r.
  revert Hc. clear. destruct c as [[] [] [] [] [] [] [] []]; trivial.
Qed.

Lemma is_ascii_substring s : forall n m,
  is_ascii s = true -> is_ascii (substring n m s) = true.
Proof.
  induction s as [|c s IH]; intros n m H.
  - destruct n, m; reflexivity.
  - cbn [is_ascii] in H. apply andb_true_iff in H as [Hc Hs].
    destruct n as [|n]; [destruct m as [|m]|]; cbn [substring is_ascii].
    + reflexivity.
    + now rewrite Hc, IH.
    + now apply IH.
Qed.

(** X20.  For a type, a value and a package of ASCII text, the generated
    component id is ASCII text that holds no space, slash, hyphen or dot
    and no upper-case letter; and normalizing a segment twice changes
    nothing more. *)
Theorem generate_component_id_chars (comp_type value package : string) :
  is_ascii comp_type = true ->
  is_ascii value = true ->
  is_ascii package = true ->
  string_forallb id_char
    (InventoryImporter.generate_component_id comp_type value package) = true
  /\ is_ascii
       (InventoryImporter.generate_component_id comp_type value package)
     = true
  /\ InventoryImporter.clean (InventoryImporter.clean value)
     = InventoryImporter.clean value.
Proof.
  intros Ht Hv Hp.
  assert (Hclean : forall s,
            string_forallb id_char (InventoryImporter.clean s) = true).
  { intros s. rewrite clean_chars. apply string_forallb_map.
    intros c. apply clean_char_facts. }
  split; [|split].
  - unfold InventoryImporter.generate_component_id, push.
    apply string_forallb_concat; [reflexivity|].
    destruct (truthy value), (truthy package); cbn [app];
      repeat constructor; apply Hclean.
  - rewrite is_ascii_forallb.
    unfold InventoryImporter.generate_component_id, push.
    apply string_forallb_concat; [reflexivity|].
    destruct (truthy value), (truthy package); cbn [app];
      repeat constructor; rewrite <- is_ascii_forallb;
      apply is_ascii_clean; try assumption;
      now apply is_ascii_substring.
  - rewrite !clean_chars, string_map_map. apply string_map_ext.
    intros c. apply clean_char_facts.
Qed.

(** The id of a dual op-amp in a DIP-8 package. *)
Lemma generate_component_id_chars_sample :
  string_forallb id_char
    (InventoryImporter.generate_component_id "ic" "TL072 / NE5532" "DIP-8")
  = true
  /\ InventoryImporter.generate_component_id "ic" "TL072 / NE5532" "DIP-8"
     = "ic_tl072___ne5532_dip_8".
Proof.
  destruct (generate_component_id_chars "ic" "TL072 / NE5532" "DIP-8"
              eq_refl eq_refl eq_refl) as [H _].
  split; [exact H | reflexivity].
Defined.

(** ** The importer: counts and lookups *)

Lemma count_type_facts k counts :
  list_sum (map snd (InventoryImporter.count_type k counts))
  = S (list_sum (map snd counts))
  /\ (forall k', In k' (map fst (InventoryImporter.count_type k counts))
                 <-> k' = k \/ In k' (map fst counts))
  /\ (NoDup (map fst counts) ->
      NoDup (map fst (InventoryImporter.count_type k counts))).
Proof.
  induction counts as [|[k0 n] counts [IHs [IHk IHn]]].
  - cbn. split; [reflexivity|]. split; [intros k'; intuition congruence|].
    intros _. repeat constructor. intros [].
  - cbn [InventoryImporter.count_type].
    destruct (String.eqb_spec k0 k) as [->|Hne]; cbn [map fst snd].
    + split; [reflexivity|].
      split; [intros k'; cbn; intuition congruence | auto].
    + split.
      { change (n + list_sum (map snd (InventoryImporter.count_type k counts))
                = S (n + list_sum (map snd counts)))%nat.
        rewrite IHs. lia. }
      split.
      * intros k'. cbn [In]. rewrite IHk. intuition congruence.
      * intros Hnd. inversion Hnd as [|? ? Hk0 Hnd']; subst.
        constructor; [|auto]. rewrite IHk. intros [E|H]; auto.
Qed.

Lemma type_counts_loop (comps : list Component) : forall counts,
  let counts' :=
    fold_left (fun counts comp => InventoryImporter.count_type (type comp) counts)
              comps counts in
  list_sum (map snd counts')
  = (list_sum (map snd counts) + List.length comps)%nat
  /\ (NoDup (map fst counts) -> NoDup (map fst counts'))
  /\ (forall k, In k (map fst counts') <->
        In k (map fst counts) \/ In k (map type comps)).
Proof.
  induction comps as [|c comps IH]; intros counts; cbn [fold_left].
  - cbn. split; [lia|]. split; [auto | intros k; tauto].
  - destruct (IH (InventoryImporter.count_type (type c) counts))
      as [Hs [Hn Hk]].
    destruct (count_type_facts (type c) counts) as [Hs1 [Hk1 Hn1]].
    split; [rewrite Hs, Hs1; cbn; lia|].
    split; [auto|].
    intros k. rewrite Hk, Hk1. cbn [map In]. intuition auto.
Qed.

(** X21.  An import reports as many components as the file has rows, and
    its [by_type] dict shares them out: the types are distinct and their
    counts add up to the number of rows.  In preview mode the database is
    left as it was and no inserted or skipped count is given; the total and
    [by_type] are those of the real import. *)
Theorem import_components_summary (schema : Schema) (db : Database)
    (rows : list CsvRow) (clock : nat -> string) :
  let report (preview : bool) :=
    snd (InventoryImporter.import_components schema db rows preview clock) in
  (forall preview,
     total_components (report preview) = List.length rows
     /\ list_sum (map snd (by_type (report preview))) = List.length rows
     /\ NoDup (map fst (by_type (report preview))))
  /\ by_type (report true) = by_type (report false)
  /\ fst (InventoryImporter.import_components schema db rows true clock) = db
  /\ inserted (report true) = None
  /\ skipped (report true) = None.
Proof.
  intros report.
  split; [|repeat split].
  intros preview.
  destruct (type_counts_loop (InventoryImporter.transform_rows rows clock) [])
    as [Hs [Hn _]].
  cbv zeta in Hs, Hn. rewrite transform_rows_length in Hs.
  unfold report, InventoryImporter.import_components.
  destruct preview; cbn [snd total_components by_type];
    rewrite transform_rows_length;
    (split; [reflexivity|]); (split; [exact Hs|]); apply Hn; constructor.
Qed.





(** ** Inventory routes *)

Lemma component_type_round_trip t : component_type_of (enum_value t) = Some t.
Proof. destruct t; reflexivity. Qed.

Lemma component_type_of_value s t :
  component_type_of s = Some t -> enum_value t = s.
Proof.
  unfold component_type_of. intros H. apply find_some in H as [_ H].
  now apply String.eqb_eq.
Qed.

(** X23.  The list route never answers 400.  A type that is not empty and
    is not the name of a component type gives a 500, whose detail is the
    text of the 400 that was meant; the name of a component type gives
    exactly the components of that type; no type, or an empty one, gives
    them all.  In the body the total is the number of components listed. *)
Theorem list_route_answers (str_exception : nat -> string -> string)
    (db : Database) (wanted : option string) :
  let answer := InventoryRoutes.list_components str_exception db wanted in
  (forall detail, answer <> HttpError 400 detail)
  /\ (forall s, wanted = Some s -> s <> "" -> component_type_of s = None ->
        answer
        = HttpError 500
            (str_exception 400%nat ("Invalid component type: " ++ s)))
  /\ (forall s t, wanted = Some s -> component_type_of s = Some t ->
        exists body,
          answer = Ok body
          /\ listed_total body = List.length (listed_components body)
          /\ forall c, In c (listed_components body) <->
                       In c (components db) /\ type c = s)
  /\ (wanted = None \/ wanted = Some "" ->
        exists body,
          answer = Ok body
          /\ Permutation (listed_components body) (components db)
          /\ listed_total body = List.length (components db)).
Proof.
  intros answer. unfold answer, InventoryRoutes.list_components.
  split; [|split; [|split]].
  - intros detail.
    destruct wanted as [s|]; [|discriminate].
    destruct (truthy s); [|discriminate].
    destruct (component_type_of s); discriminate.
  - intros s -> Hs Hnone.
    destruct s as [|c s']; [now elim Hs|]. cbn [truthy].
    rewrite Hnone. reflexivity.
  - intros s t -> Ht.
    pose proof (component_type_of_value s t Ht) as Hv.
    assert (Hs : truthy s = true) by (rewrite <- Hv; destruct t; reflexivity).
    rewrite Hs, Ht. eexists. split; [reflexivity|].
    cbn [listed_total listed_components]. split; [reflexivity|].
    intros c. unfold ComponentInventoryService.list_components.
    rewrite Hv, Hs, order_by_In, filter_In, String.eqb_eq. reflexivity.
  - intros Hw.
    assert (Hall : exists body,
              Ok {| listed_components :=
                      ComponentInventoryService.list_components db None;
                    listed_total :=
                      List.length
                        (ComponentInventoryService.list_components db None) |}
              = Ok body
              /\ Permutation (listed_components body) (components db)
              /\ listed_total body = List.length (components db)).
    { eexists. split; [reflexivity|].
      cbn [listed_total listed_components].
      assert (Hperm : Permutation
                        (ComponentInventoryService.list_components db None)
                        (components db)) by apply order_by_perm.
      split; [exact Hperm|]. now apply Permutation_length. }
    destruct Hw as [->| ->]; exact Hall.
Qed.

(** An unknown type on the sample inventory. *)
Lemma list_route_answers_sample :
  exists detail,
    InventoryRoutes.list_components (fun _ d => d) sample_db (Some "bogus")
    = HttpError 500 detail.
Proof.
  destruct (list_route_answers (fun _ d => d) sample_db (Some "bogus"))
    as [_ [H _]].
  eexists. apply (H "bogus" eq_refl); [discriminate | reflexivity].
Defined.

(** X24.  The quantity route answers 404 and leaves the database as it
    was when no component has the id.  For a known id and a delta that is
    a 64-bit integer it applies the update and, the stock being a 64-bit
    integer before and after, answers with the stock of the component plus
    the delta as the new quantity.  A delta that is no 64-bit integer makes the
    service raise OverflowError: the route answers 500 with the message of
    the exception and the database is as it was. *)
Theorem update_route_answers (db : Database) (component_id : string)
    (delta : Z) (now : string) :
  match ComponentInventoryService.get_component db component_id with
  | None =>
      InventoryRoutes.update_quantity db component_id delta now
      = (db, HttpError 404 ("Component not found: " ++ component_id))
  | Some c =>
      (int64 delta = false ->
       InventoryRoutes.update_quantity db component_id delta now
       = (db, HttpError 500
                "Python int too large to convert to SQLite INTEGER"))
      /\ (int64 delta = true ->
          int64 (quantity_in_stock c) = true ->
          int64 (quantity_in_stock c + delta) = true ->
          InventoryRoutes.update_quantity db component_id delta now
          = (fst (ComponentInventoryService.update_quantity
                    db component_id delta now),
             Ok {| update_success := true;
                   update_component_id := component_id;
                   new_quantity := quantity_in_stock c + delta |}))
  end.
Proof.
  unfold InventoryRoutes.update_quantity.
  destruct (ComponentInventoryService.get_component db component_id)
    as [c|] eqn:Hc; [|reflexivity].
  split.
  - intros Hd. now rewrite update_quantity_overflow.
  - intros Hd _ _.
    destruct (update_quantity_hit db component_id delta now c Hd Hc)
      as [Hs Hg].
    destruct (ComponentInventoryService.update_quantity
                db component_id delta now) as [db' success].
    cbn [fst snd] in *. subst success. cbn [negb]. rewrite Hg. reflexivity.
Qed.

(** Ten more sample resistors are answered with 60; 2^63 more with 500. *)
Lemma update_route_answers_sample :
  snd (InventoryRoutes.update_quantity
         sample_db "resistor_10k_through_hole" 10 "t1")
  = Ok {| update_success := true;
          update_component_id := "resistor_10k_through_hole";
          new_quantity := 60 |}
  /\ InventoryRoutes.update_quantity
       sample_db "resistor_10k_through_hole" (2 ^ 63) "t1"
     = (sample_db,
        HttpError 500 "Python int too large to convert to SQLite INTEGER").
Proof.
  pose proof (update_route_answers sample_db "resistor_10k_through_hole"
                10 "t1") as H1.
  pose proof (update_route_answers sample_db "resistor_10k_through_hole"
                (2 ^ 63) "t1") as H2.
  cbn [ComponentInventoryService.get_component sample_db components find]
    in H1, H2.
  change (String.eqb (id sample_component) "resistor_10k_through_hole")
    with true in H1, H2.
  cbv iota in H1, H2.
  destruct H1 as [_ H1]. destruct H2 as [H2 _].
  split.
  - rewrite (H1 eq_refl eq_refl eq_refl). reflexivity.
  - exact (H2 eq_refl).
Defined.

(** ** CSV text *)

Lemma round_confidence_range q :
  (0 <= q)%Q -> (q <= 1)%Q -> 0 <= round_half_even (Qabs q * 100) <= 100.
Proof.
  destruct q as [n d]. unfold Qle. cbn [Qnum Qden]. intros H0 H1.
  assert (Hn : 0 <= n <= Zpos d) by lia.
  unfold round_half_even, Qabs, Qmult. cbn [Qnum Qden].
  rewrite Pos.mul_1_r, Z.abs_eq by lia.
  pose proof (Z.div_mod (n * 100) (Zpos d) ltac:(lia)) as Hdm.
  pose proof (Z.mod_pos_bound (n * 100) (Zpos d) ltac:(lia)) as Hb.
  set (f := n * 100 / Zpos d) in *. set (r := (n * 100) mod Zpos d) in *.
  assert (Hf : 0 <= f <= 100) by nia.
  destruct (Z.ltb_spec (2 * r) (Zpos d)); [exact Hf|].
  assert (Hf' : f < 100) by nia.
  destruct (Z.ltb_spec (Zpos d) (2 * r)); [lia|].
  destruct (Z.even f); lia.
Qed.

(** X25.  A confidence between 0 and 1 is written with one digit before
    the point: as 1.00, or as 0 followed by the point and two digits. *)
Theorem format_confidence_shape (q : Q) :
  (0 <= q)%Q -> (q <= 1)%Q ->
  format_2f q = "1.00"
  \/ exists d1 d2,
       format_2f q = String "0" (String "." (String d1 (String d2 "")))
       /\ is_digit d1 = true /\ is_digit d2 = true.
Proof.
  intros H0 H1. pose proof (round_confidence_range q H0 H1) as Hh.
  unfold format_2f.
  set (h := round_half_even (Qabs q * 100)) in *.
  destruct (Qlt_le_dec q 0) as [Hneg|_].
  { exfalso. apply (Qlt_not_le _ _ Hneg). exact H0. }
  destruct (Z.eq_dec h 100) as [->|Hne].
  - left. reflexivity.
  - right. assert (Hdiv : h / 100 = 0) by (apply Z.div_small; lia).
    rewrite Hdiv.
    exists (digit_char ((h / 10) mod 10)), (digit_char (h mod 10)).
    split; [reflexivity|].
    split; apply digit_char_is_digit; apply Z.mod_pos_bound; lia.
Qed.

(** The confidence of the sample resistor line. *)
Lemma format_confidence_shape_sample :
  format_2f (confidence_score sample_bom_resistor) = "0.95".
Proof.
  destruct (format_confidence_shape (confidence_score sample_bom_resistor))
    as [H|[d1 [d2 [H _]]]];
    [discriminate | discriminate | discriminate H | reflexivity].
Defined.

Lemma digit_not_newline c : is_digit c = true -> Ascii.eqb c newline = false.
Proof.
  destruct c as [[] [] [] [] [] [] [] []]; try discriminate; reflexivity.
Qed.

Lemma format_2f_one_line q : count_char newline (format_2f q) = 0%nat.
Proof.
  unfold format_2f. set (h := round_half_even (Qabs q * 100)).
  rewrite !count_char_append.
  rewrite count_char_str_int by (reflexivity || discriminate).
  cbn [count_char].
  rewrite (digit_not_newline (digit_char ((h / 10) mod 10)))
    by (apply digit_char_is_digit; apply Z.mod_pos_bound; lia).
  rewrite (digit_not_newline (digit_char (h mod 10)))
    by (apply digit_char_is_digit; apply Z.mod_pos_bound; lia).
  destruct (Qlt_le_dec q 0); reflexivity.
Qed.

Lemma csv_line_newlines it :
  count_char newline (BOMManagerService.csv_line it)
  = (count_char newline (component_type it)
     + count_char newline (component_value it)
     + count_char newline
         (BOMManagerService.or_empty (reference_designator it)))%nat.
Proof.
  unfold BOMManagerService.csv_line. rewrite !count_char_append.
  rewrite format_2f_one_line.
  rewrite count_char_str_int by (reflexivity || discriminate).
  destruct (is_critical it); cbn; lia.
Qed.

(** X26.  When no type, value or reference designator of the BOM holds a
    newline, the exported text has one newline per BOM line: it is the
    header and as many lines after it as the BOM has items. *)
Theorem export_bom_csv_line_count (db : Database) (circuit : string) :
  (forall it, In it (BOMManagerService.get_bom db circuit) ->
     count_char newline (component_type it) = 0%nat
     /\ count_char newline (component_value it) = 0%nat
     /\ count_char newline
          (BOMManagerService.or_empty (reference_designator it)) = 0%nat) ->
  count_char newline (BOMManagerService.export_bom_csv db circuit)
  = List.length (BOMManagerService.get_bom db circuit).
Proof.
  intros Hclean.
  rewrite export_bom_csv_eq, count_char_concat_nl, length_map.
  unfold newlines_in. cbn [map list_sum fold_right].
  assert (Hzero : list_sum
                    (map (count_char newline)
                       (map BOMManagerService.csv_line
                          (BOMManagerService.get_bom db circuit))) = 0%nat).
  { induction (BOMManagerService.get_bom db circuit) as [|it l IH];
      [reflexivity|].
    cbn [map]. change (list_sum (?a :: ?l)) with (a + list_sum l)%nat.
    rewrite IH by (intros x Hx; apply Hclean; now right).
    rewrite csv_line_newlines.
    destruct (Hclean it (or_introl eq_refl)) as [-> [-> ->]]. reflexivity. }
  change (fold_right Nat.add 0%nat
            (map (count_char newline)
               (map BOMManagerService.csv_line
                  (BOMManagerService.get_bom db circuit))))
    with (list_sum
            (map (count_char newline)
               (map BOMManagerService.csv_line
                  (BOMManagerService.get_bom db circuit)))).
  rewrite Hzero. cbn. lia.
Qed.

(** The sample circuit: two lines after the header. *)
Lemma export_bom_csv_line_count_sample :
  count_char newline (BOMManagerService.export_bom_csv sample_db "test_overdrive")
  = 2%nat.
Proof.
  rewrite (export_bom_csv_line_count sample_db "test_overdrive").
  - reflexivity.
  - intros it [<-|[<-|[]]]; repeat split; reflexivity.
Defined.

(** ** Statistics and listings together *)

(** X27.  The two views of a BOM by type agree: for every component type
    the count in the [by_type] of the statistics is the size of the group
    that [get_bom_by_type] holds for the type, and a type has a count
    exactly when it has a group. *)
Theorem bom_by_type_views_agree (db : Database) (circuit k : string) :
  lookup (bom_by_type (BOMManagerService.get_statistics db circuit)) k
  = option_map (fun group => Z.of_nat (List.length group))
      (lookup (BOMManagerService.get_bom_by_type db circuit) k).
Proof.
  rewrite bom_statistics_lookup, get_bom_by_type_lookup.
  destruct (of_component_type k (BOMManagerService.get_bom db circuit));
    reflexivity.
Qed.

(** X28.  The inventory statistics and the listing by type agree, for an
    inventory whose stocks add up within the 64-bit integers: a component
    type has an entry in [by_type] exactly when listing the type returns
    something, and the entry holds the number of components listed and
    the sum of their stocks. *)
Theorem inventory_by_type_is_listing (db : Database) (t : ComponentType) :
  Sqlite.sum_fits quantity_in_stock (components db) = true ->
  lookup (stock_by_type (ComponentInventoryService.get_statistics db))
         (enum_value t)
  = match ComponentInventoryService.list_components db (Some t) with
    | [] => None
    | listed =>
        Some {| types := Z.of_nat (List.length listed);
                units_in_stock := sum_of quantity_in_stock listed |}
    end
  /\ int64 (sum_of quantity_in_stock
              (ComponentInventoryService.list_components db (Some t))) = true.
Proof.
  intros Hfit.
  rewrite inventory_statistics_eq. cbn [stock_by_type].
  rewrite (group_by_lookup type
             (fun g => {| types := Z.of_nat (List.length g);
                          units_in_stock := sum_of quantity_in_stock g |})).
  unfold ComponentInventoryService.list_components.
  assert (Ht : truthy (enum_value t) = true) by (destruct t; reflexivity).
  rewrite Ht.
  apply sum_fits_spec in Hfit.
  pose proof (sum_of_abs_filter quantity_in_stock
                (fun c => String.eqb (type c) (enum_value t))
                (components db)) as Habs.
  set (rows := filter (fun c => String.eqb (type c) (enum_value t))
                      (components db)) in *.
  assert (Hperm : Permutation
                    (Sqlite.order_by ComponentInventoryService.list_order rows)
                    rows) by apply order_by_perm.
  pose proof (Permutation_length Hperm) as Hlen.
  pose proof (sum_of_perm quantity_in_stock _ _ Hperm) as Hsum.
  split.
  - destruct (Sqlite.order_by ComponentInventoryService.list_order rows)
      as [|a l]; destruct rows as [|b m]; try discriminate Hlen;
      [reflexivity|].
    now rewrite Hlen, Hsum.
  - rewrite Hsum. apply int64_abs. lia.
Qed.

(** The resistors of the sample inventory. *)
Lemma inventory_by_type_is_listing_sample :
  lookup (stock_by_type (ComponentInventoryService.get_statistics sample_db))
         "resistor"
  = Some {| types := 1; units_in_stock := 50 |}.
Proof.
  destruct (inventory_by_type_is_listing sample_db RESISTOR eq_refl)
    as [H _].
  exact H.
Defined.

(** X29.  [get_component] finds a component exactly when the table has a
    row with the id: the route answers 404 when there is none, and
    otherwise it answers with the columns of a row of the table that has
    the id asked for, all of them but [voltage], which the response model
    does not declare. *)
Theorem get_component_answers (db : Database) (component_id : string) :
  match ComponentInventoryService.get_component db component_id with
  | None =>
      ~ In component_id (map id (components db))
      /\ InventoryRoutes.get_component db component_id
         = HttpError 404 ("Component not found: " ++ component_id)
  | Some c =>
      In c (components db) /\ id c = component_id
      /\ exists r,
           InventoryRoutes.get_component db component_id = Ok r
           /\ resp_id r = component_id
           /\ resp_type r = type c
           /\ resp_name r = name c
           /\ resp_value r = value c
           /\ resp_tolerance r = tolerance c
           /\ resp_package r = package c
           /\ resp_manufacturer r = manufacturer c
           /\ resp_part_number r = part_number c
           /\ resp_datasheet_url r = datasheet_url c
           /\ resp_quantity_in_stock r = quantity_in_stock c
           /\ resp_minimum_quantity r = minimum_quantity c
           /\ resp_unit_price r = unit_price c
           /\ resp_location r = location c
           /\ resp_notes r = notes c
           /\ resp_created_at r = created_at c
           /\ resp_updated_at r = updated_at c
  end.
Proof.
  unfold InventoryRoutes.get_component, ComponentInventoryService.get_component.
  destruct (find (fun c => String.eqb (id c) component_id) (components db))
    as [c|] eqn:E.
  - apply find_some in E as [Hin He]. apply String.eqb_eq in He.
    split; [exact Hin|]. split; [exact He|].
    eexists. split; [reflexivity|]. cbn. rewrite He. repeat split.
  - split; [|reflexivity]. intros Hin.
    apply in_map_iff in Hin as [c [Hc Hin]].
    pose proof (find_none _ _ E c Hin) as Hn. cbv beta in Hn.
    rewrite Hc, String.eqb_refl in Hn. discriminate.
Qed.
